(** * Rekall profile converter (tools/profile_converter.py)

    A shallow embedding of the converter classes [ProfileConverter],
    [LinuxConverter], [OSXConverter] and [WindowsConverter], of the
    dispatcher [ConvertProfile] and of [main], followed by the properties
    of the specification that concern them.

    Python 2 byte strings are Rocq strings, a [dict] is a [gmap], Python
    integers ([long]) are [Z].  A method that mutates [self] or raises is
    a computation in a state-and-exception monad over the converter
    object. *)

From Stdlib Require Import ZArith Ascii String List Bool Lia.
From stdpp Require Import base option list strings gmap fin_maps.

Local Open Scope string_scope.
Local Open Scope Z_scope.

(** ** Python string primitives *)

Module Py.

(** [c.isspace()] for a byte in the C locale: space, \t, \n, \v, \f, \r. *)
Definition isspace (c : ascii) : bool :=
  let n := nat_of_ascii c in
  (n =? 32)%nat || ((9 <=? n)%nat && (n <=? 13)%nat).

Definition LF : ascii := ascii_of_nat 10.
Definition CR : ascii := ascii_of_nat 13.
Definition TAB : ascii := ascii_of_nat 9.
Definition NUL : ascii := ascii_of_nat 0.

Definition ascii_eqb (a b : ascii) : bool := Ascii.eqb a b.

(** ASCII lower-casing, as used by [re.I]. *)
Definition lower (c : ascii) : ascii :=
  let n := nat_of_ascii c in
  if ((65 <=? n)%nat && (n <=? 90)%nat) then ascii_of_nat (n + 32) else c.

(** [s.splitlines()] on a byte string: lines end at \n, \r or \r\n, the
    terminators are dropped, and a final terminator opens no new line. *)
Fixpoint splitlines (s : string) : list string :=
  match s with
  | EmptyString => []
  | String c s' =>
      if ascii_eqb c LF then EmptyString :: splitlines s'
      else if ascii_eqb c CR then
        match s' with
        | String c' s'' =>
            if ascii_eqb c' LF then EmptyString :: splitlines s''
            else EmptyString :: splitlines s'
        | EmptyString => [EmptyString]
        end
      else
        match splitlines s' with
        | [] => [String c EmptyString]
        | l :: ls => String c l :: ls
        end
  end.

(** [s.lstrip()], [s.rstrip()] and [s.strip()] with no argument. *)
Fixpoint lstrip (s : string) : string :=
  match s with
  | EmptyString => EmptyString
  | String c s' => if isspace c then lstrip s' else s
  end.

Fixpoint rstrip (s : string) : string :=
  match s with
  | EmptyString => EmptyString
  | String c s' =>
      match rstrip s' with
      | EmptyString => if isspace c then EmptyString else String c EmptyString
      | r => String c r
      end
  end.

Definition strip (s : string) : string := rstrip (lstrip s).

(** [s.split()] with no argument: the maximal runs of non-space bytes. *)
Fixpoint split (s : string) : list string :=
  match s with
  | EmptyString => []
  | String c s' =>
      if isspace c then split s'
      else
        match s' with
        | EmptyString => [String c EmptyString]
        | String c' _ =>
            if isspace c' then String c EmptyString :: split s'
            else
              match split s' with
              | [] => [String c EmptyString]
              | w :: ws => String c w :: ws
              end
        end
  end.

(** [p] is a prefix of [s]. *)
Fixpoint startswith (p s : string) : bool :=
  match p, s with
  | EmptyString, _ => true
  | String a p', String b s' => ascii_eqb a b && startswith p' s'
  | String _ _, EmptyString => false
  end.

(** [sub in s]. *)
Fixpoint contains (sub s : string) : bool :=
  startswith sub s ||
  match s with
  | EmptyString => false
  | String _ s' => contains sub s'
  end.

(** Value of a hexadecimal digit. *)
Definition hexval (c : ascii) : option Z :=
  let n := nat_of_ascii c in
  if ((48 <=? n)%nat && (n <=? 57)%nat) then Some (Z.of_nat (n - 48))
  else if ((97 <=? n)%nat && (n <=? 102)%nat) then Some (Z.of_nat (n - 87))
  else if ((65 <=? n)%nat && (n <=? 70)%nat) then Some (Z.of_nat (n - 55))
  else None.

(** Reads the longest run of hexadecimal digits at the head of [s]:
    the accumulated value, whether a digit was read, and the rest. *)
Fixpoint hexdigits (acc : Z) (seen : bool) (s : string) : Z * bool * string :=
  match s with
  | EmptyString => (acc, seen, s)
  | String c s' =>
      match hexval c with
      | Some d => hexdigits (16 * acc + d) true s'
      | None => (acc, seen, s)
      end
  end.

Definition skip_0x (s : string) : string :=
  match s with
  | String a (String b s') =>
      if ascii_eqb a "0" && (ascii_eqb b "x" || ascii_eqb b "X") then s' else s
  | _ => s
  end.

Definition skip_sign (s : string) : Z * string :=
  match s with
  | String c s' =>
      if ascii_eqb c "+" then (1, s')
      else if ascii_eqb c "-" then (-1, s')
      else (1, s)
  | EmptyString => (1, s)
  end.

Definition skip_L (s : string) : string :=
  match s with
  | String c s' => if ascii_eqb c "L" || ascii_eqb c "l" then s' else s
  | EmptyString => s
  end.

Fixpoint has_nul (s : string) : bool :=
  match s with
  | EmptyString => false
  | String c s' => ascii_eqb c NUL || has_nul s'
  end.

(** [long(s, 16)] of Python 2: surrounding white space, a sign, an
    optional [0x], at least one hexadecimal digit and an optional
    trailing [L]; [None] stands for the [ValueError] it raises on
    anything else. *)
Definition long16 (s : string) : option Z :=
  if has_nul s then None
  else
    let '(sign, s1) := skip_sign (lstrip s) in
    let s2 := skip_0x (lstrip s1) in
    let '(v, seen, s3) := hexdigits 0 false s2 in
    if seen then
      match lstrip (skip_L s3) with
      | EmptyString => Some (sign * v)
      | String _ _ => None
      end
    else None.

End Py.

(** ** Regular expressions ([re.search])

    The fragment of Python's [re] syntax that the converters use, matched
    by backtracking in the order of Python's engine: alternatives left to
    right, [+] greedy, leftmost starting position first. *)

Module Re.

Inductive regex : Type :=
| Lit (c : ascii)            (* an ordinary character *)
| Dot                        (* [.] : any character but a newline *)
| NotChar (c : ascii)        (* [[^c]] *)
| Bol                        (* [^] *)
| Eol                        (* [$] *)
| Eps
| Cat (r1 r2 : regex)
| Alt (r1 r2 : regex)        (* [r1|r2] *)
| Plus (r : regex)           (* [r+] *)
| Group (n : nat) (r : regex).  (* the [n]-th parenthesis *)

(** The literal text [s] as a pattern. *)
Fixpoint Lits (s : string) : regex :=
  match s with
  | EmptyString => Eps
  | String c EmptyString => Lit c
  | String c s' => Cat (Lit c) (Lits s')
  end.

Definition captures := list (nat * string).

Fixpoint take (n : nat) (s : string) : string :=
  match n, s with
  | S n', String c s' => String c (take n' s')
  | _, _ => EmptyString
  end.

Definition chr_eq (ignorecase : bool) (a b : ascii) : bool :=
  if ignorecase then Py.ascii_eqb (Py.lower a) (Py.lower b)
  else Py.ascii_eqb a b.

Definition cont := nat -> string -> captures -> option captures.

(** [rmatch i r pos s caps k]: match [r] at offset [pos], where [s] is
    what remains of the subject, then continue with [k]. *)
Fixpoint rmatch (i : bool) (r : regex)
    (pos : nat) (s : string) (caps : captures) (k : cont) : option captures :=
  match r with
  | Lit c =>
      match s with
      | String a s' => if chr_eq i c a then k (S pos) s' caps else None
      | EmptyString => None
      end
  | Dot =>
      match s with
      | String a s' => if Py.ascii_eqb a Py.LF then None else k (S pos) s' caps
      | EmptyString => None
      end
  | NotChar c =>
      match s with
      | String a s' => if chr_eq i c a then None else k (S pos) s' caps
      | EmptyString => None
      end
  | Bol => match pos with O => k pos s caps | S _ => None end
  | Eol =>
      match s with
      | EmptyString => k pos s caps
      | String a EmptyString => if Py.ascii_eqb a Py.LF then k pos s caps else None
      | String _ (String _ _) => None
      end
  | Eps => k pos s caps
  | Cat r1 r2 =>
      rmatch i r1 pos s caps (fun pos' s' caps' => rmatch i r2 pos' s' caps' k)
  | Alt r1 r2 =>
      match rmatch i r1 pos s caps k with
      | Some c => Some c
      | None => rmatch i r2 pos s caps k
      end
  | Plus r' =>
      (fix loop (n : nat) (pos : nat) (s : string) (caps : captures)
         {struct n} : option captures :=
         rmatch i r' pos s caps (fun pos' s' caps' =>
           match n with
           | S n' =>
               if (String.length s' <? String.length s)%nat then
                 match loop n' pos' s' caps' with
                 | Some c => Some c
                 | None => k pos' s' caps'
                 end
               else k pos' s' caps'
           | O => k pos' s' caps'
           end))
        (String.length s) pos s caps
  | Group n r' =>
      rmatch i r' pos s caps (fun pos' s' caps' =>
        k pos' s' ((n, take (pos' - pos) s) :: caps'))
  end.

(** Tries the starting offsets from [pos] on. *)
Fixpoint search_from (i : bool) (r : regex) (pos : nat) (s : string)
  : option captures :=
  match rmatch i r pos s [] (fun _ _ caps => Some caps) with
  | Some c => Some c
  | None =>
      match s with
      | EmptyString => None
      | String _ s' => search_from i r (S pos) s'
      end
  end.

(** [re.search(r, s, flags)]: the groups of the leftmost match, [None]
    when there is none. *)
Definition search (r : regex) (s : string) (ignorecase : bool) : option captures :=
  search_from ignorecase r 0 s.

(** [m.group(n)]. *)
Fixpoint group (m : captures) (n : nat) : string :=
  match m with
  | [] => EmptyString
  | (j, t) :: m' => if (j =? n)%nat then t else group m' n
  end.

End Re.

(** ** Exceptions and results *)

(** The exception classes that the converter raises or lets through. *)
Inductive exception : Type :=
| RuntimeError (msg : string)
| NotImplementedError (msg : string)   (* the subclass of RuntimeError *)
| ValueError (msg : string)
| KeyError (key : string)
| IndexError (msg : string)
| IOError (msg : string)
| AttributeError (msg : string)
| TypeError (msg : string)
| OtherError (cls msg : string).       (* any class outside RuntimeError *)

(** [except RuntimeError] catches the class and its subclasses. *)
Definition is_RuntimeError (e : exception) : bool :=
  match e with
  | RuntimeError _ | NotImplementedError _ => true
  | _ => false
  end.

Inductive result (A : Type) : Type :=
| Ok (a : A)
| Raise (e : exception).

Arguments Ok {A} a.
Arguments Raise {A} e.

Definition is_Ok {A} (r : result A) : bool :=
  match r with Ok _ => true | Raise _ => false end.

(** Truth value of an optional byte string: [None] and [""] are false. *)
Definition truthy (o : option string) : bool :=
  match o with
  | Some (String _ _) => true
  | _ => false
  end.

(** ** The archives (rekall.io_manager) *)

(** Modelled from the spec: the archive reader of rekall.io_manager, which
    is not part of the converter's file.  An input archive is an ordered
    sequence of named entries; [ListFiles] gives the names in their listed
    order and [Open] the bytes of the entry of that name. *)
Definition Archive : Type := list (string * string).

Definition ListFiles (a : Archive) : list string := a.*1.

Fixpoint Open (a : Archive) (name : string) : result string :=
  match a with
  | [] => Raise (IOError name)
  | (n, data) :: a' => if String.eqb n name then Ok data else Open a' name
  end.

(** What a converter is constructed on: an archive (the dispatcher) or
    the source file name ([main] with [--converter]). *)
Inductive input_handle : Type :=
| InArchive (a : Archive)
| InPath (path : string).

Section Converters.

(** The type-layout table is opaque to the converter. *)
Context {vtypes : Type}.

(** Modelled from the spec: what the archive writer of rekall.io_manager
    holds.  [StoreData] stores a structured value under a name, [Create]
    opens a raw entry that receives bytes. *)
Inductive entry : Type :=
| ConstantsData (system_map : gmap string Z)
| VTypesData (v : vtypes)
| MetadataData (ProfileClass : option string) (Constants VTypes : string)
| RawData (bytes : string).

Definition Output : Type := gmap string entry.

Definition StoreData (name : string) (data : entry) (o : Output) : Output :=
  <[name := data]> o.

Definition Create_write (name : string) (bytes : string) (o : Output) : Output :=
  <[name := RawData bytes]> o.

(** The collaborators outside the converter's file: the two DWARF
    parsers, [exec], [json.loads], [open] and [io_manager.Factory]. *)
Class Collaborators : Type := {
  ko_parser : Type;
  (** [dwarfparser.DWARFParser(StringIO.StringIO(ko_file))] *)
  ko_DWARFParser : string -> result ko_parser;
  (** [parser.VType()] *)
  ko_VType : ko_parser -> result vtypes;
  (** [dwarfdump.DWARFParser()], [feed_line] on each line, [print_output()] *)
  dwarfdump_output : list string -> result string;
  (** [exec(code, {}, l)]: the local names that the code binds *)
  exec : string -> result (gmap string vtypes);
  (** [json.loads] *)
  json_loads : string -> result vtypes;
  (** [open(path, "rb")] and [fd.read()] *)
  open_rb : string -> result string;
  (** [io_manager.Factory(path, mode="w")] and [mode="r"] *)
  Factory_w : string -> result Output;
  Factory_r : string -> result Archive
}.

Context `{Collaborators}.

(** ** The converter object and its monad *)

Record Converter : Type := mkConverter {
  input : input_handle;
  output : Output;
  profile_class : option string
}.

(** [ProfileConverter.__init__] *)
Definition init (input : input_handle) (output : Output)
    (profile_class : option string) : Converter :=
  mkConverter input output profile_class.

(** A method body: it reads and updates [self] and returns or raises; the
    object keeps the updates made before an exception. *)
Definition M (A : Type) : Type := Converter -> result A * Converter.

Definition ret {A} (a : A) : M A := fun self => (Ok a, self).

Definition raise {A} (e : exception) : M A := fun self => (Raise e, self).

Definition bind {A B} (m : M A) (k : A -> M B) : M B :=
  fun self =>
    match m self with
    | (Ok a, self') => k a self'
    | (Raise e, self') => (Raise e, self')
    end.

Definition lift {A} (r : result A) : M A := fun self => (r, self).

Definition get_profile_class : M (option string) :=
  fun self => (Ok (profile_class self), self).

Definition set_profile_class (c : string) : M unit :=
  fun self => (Ok tt, mkConverter (input self) (output self) (Some c)).

Definition get_input : M input_handle :=
  fun self => (Ok (input self), self).

Definition update_output (f : Output -> Output) : M unit :=
  fun self => (Ok tt, mkConverter (input self) (f (output self)) (profile_class self)).

End Converters.

Arguments entry : clear implicits.
Arguments Output : clear implicits.
Arguments Collaborators : clear implicits.
Arguments Converter : clear implicits.
Arguments M : clear implicits.

Declare Scope py_scope.
Delimit Scope py_scope with py.
Notation "'let*' x ':=' m 'in' k" := (bind m (fun x => k))
  (at level 10, x pattern, m at level 100, k at level 200) : py_scope.
Notation "m1 ';;' m2" := (bind m1 (fun _ => m2))
  (at level 100, m2 at level 200, right associativity) : py_scope.

Local Open Scope py_scope.

(** [max(l)] on a list of integers. *)
Definition py_max (l : list Z) : result Z :=
  match l with
  | [] => Raise (ValueError "max() arg is an empty sequence")
  | x :: xs => Ok (foldl Z.max x xs)
  end.

(** [d.values()] *)
Definition values (d : gmap string Z) : list Z := (map_to_list d).*2.

(** ** class ProfileConverter *)

Module ProfileConverter.
Section Methods.
Context {vtypes : Type} `{Collaborators vtypes}.

Fixpoint SelectFile_loop (a : Archive) (regex : Re.regex) (files : list string)
  : result (option string) :=
  match files with
  | [] => Ok None
  | f :: files' =>
      match Re.search regex f true with
      | Some _ =>
          match Open a f with
          | Ok data => Ok (Some data)
          | Raise e => Raise e
          end
      | None => SelectFile_loop a regex files'
      end
  end.

(** Reads the content of the first file which matches regex. *)
Definition SelectFile (regex : Re.regex) : M vtypes (option string) :=
  let* i := get_input in
  match i with
  | InArchive a => lift (SelectFile_loop a regex (ListFiles a))
  | InPath _ => raise (AttributeError "'str' object has no attribute 'ListFiles'")
  end.

Definition WriteProfile (system_map : gmap string Z) (vt : vtypes) : M vtypes unit :=
  update_output (StoreData "Constants.json" (ConstantsData system_map)) ;;
  update_output (StoreData "vtypes.json" (VTypesData vt)) ;;
  let* pc := get_profile_class in
  update_output (StoreData "metadata" (MetadataData pc "Constants.json" "vtypes.json")).

Definition Convert : M vtypes unit :=
  raise (RuntimeError "Unknown profile format.").

End Methods.
End ProfileConverter.

(** ** class LinuxConverter(ProfileConverter) *)

Module LinuxConverter.
Section Methods.
Context {vtypes : Type} `{Collaborators vtypes}.

Definition BASE_PROFILE_CLASS : string := "Linux".

(** The [ValueError] of unpacking a sequence of the wrong length into
    three names. *)
Definition unpack_error (fields : list string) : exception :=
  match fields with
  | [] => ValueError "need more than 0 values to unpack"
  | [_] => ValueError "need more than 1 value to unpack"
  | [_; _] => ValueError "need more than 2 values to unpack"
  | _ => ValueError "too many values to unpack"
  end.

Fixpoint ParseSystemMap_loop (sys_map : gmap string Z) (lines : list string)
  : result (gmap string Z) :=
  match lines with
  | [] => Ok sys_map
  | line :: lines' =>
      match Py.split (Py.strip line) with
      | [address; _; symbol] =>
          match Py.long16 address with
          | Some v => ParseSystemMap_loop (<[symbol := v]> sys_map) lines'
          | None => ParseSystemMap_loop sys_map lines'
          end
      | fields => Raise (unpack_error fields)
      end
  end.

(** Parse the system map and return a list of offset, symbol_name. *)
Definition ParseSystemMap (system_map : string) : M vtypes (gmap string Z) :=
  lift (ParseSystemMap_loop ∅ (Py.splitlines system_map)).

(** Write all the components needed for the output profile.  [base] is
    the [BASE_PROFILE_CLASS] of the class of [self]. *)
Definition WriteProfile (base : string) (system_map : gmap string Z) (vt : vtypes)
  : M vtypes unit :=
  let* pc := get_profile_class in
  match pc with
  | None =>
      let* largest_offset := lift (py_max (values system_map)) in
      if largest_offset >? 2 ^ 32
      then set_profile_class (base ++ "64")
      else set_profile_class (base ++ "32")
  | Some _ => ret tt
  end ;;
  ProfileConverter.WriteProfile system_map vt.

(** [(^|/)System.map], [\.ko$], [\.dwarf$] and [\.json$] *)
Definition re_System_map : Re.regex :=
  Re.Cat (Re.Group 1 (Re.Alt Re.Bol (Re.Lit "/")))
    (Re.Cat (Re.Lits "System") (Re.Cat Re.Dot (Re.Lits "map"))).
Definition re_ko : Re.regex := Re.Cat (Re.Lits ".ko") Re.Eol.
Definition re_dwarf : Re.regex := Re.Cat (Re.Lits ".dwarf") Re.Eol.
Definition re_json : Re.regex := Re.Cat (Re.Lits ".json") Re.Eol.

(** [l[name]] on the locals left by [exec]. *)
Definition getitem (l : gmap string vtypes) (name : string) : result vtypes :=
  match l !! name with
  | Some v => Ok v
  | None => Raise (KeyError name)
  end.

Definition Convert : M vtypes unit :=
  let* system_map := ProfileConverter.SelectFile re_System_map in
  match system_map with
  | Some (String _ _ as system_map) =>
      let* system_map := ParseSystemMap system_map in
      let* ko_file := ProfileConverter.SelectFile re_ko in
      match ko_file with
      | Some (String _ _ as ko_file) =>
          let* parser := lift (ko_DWARFParser ko_file) in
          update_output (Create_write "module.ko" ko_file) ;;
          let* vt := lift (ko_VType parser) in
          WriteProfile BASE_PROFILE_CLASS system_map vt
      | _ =>
      let* dwarf_file := ProfileConverter.SelectFile re_dwarf in
      match dwarf_file with
      | Some (String _ _ as dwarf_file) =>
          let* code := lift (dwarfdump_output (Py.splitlines dwarf_file)) in
          let* l := lift (exec code) in
          let* vt := lift (getitem l "linux_types") in
          WriteProfile BASE_PROFILE_CLASS system_map vt
      | _ =>
      let* json_file := ProfileConverter.SelectFile re_json in
      match json_file with
      | Some (String _ _ as json_file) =>
          let* vt := lift (json_loads json_file) in
          WriteProfile BASE_PROFILE_CLASS system_map vt
      | _ => raise (RuntimeError "Unknown profile format.")
      end end end
  | _ => raise (RuntimeError "Unknown profile format.")
  end.

End Methods.
End LinuxConverter.

(** ** class OSXConverter(LinuxConverter) *)

Module OSXConverter.
Section Methods.
Context {vtypes : Type} `{Collaborators vtypes}.

Definition BASE_PROFILE_CLASS : string := "Darwin".

(** [re.compile("([^ ]+) '([^ ]+)'$")] *)
Definition DLSYM_REGEX : Re.regex :=
  Re.Cat (Re.Group 1 (Re.Plus (Re.NotChar " ")))
    (Re.Cat (Re.Lits " '")
       (Re.Cat (Re.Group 2 (Re.Plus (Re.NotChar " ")))
          (Re.Cat (Re.Lit "'") Re.Eol))).

(** The body of the test on a ["Symbol table for"] line. *)
Definition detect_architecture (line : string) : M vtypes unit :=
  match last (Py.split line) with
  | None => raise (IndexError "list index out of range")
  | Some last_part =>
      if String.eqb last_part "(x86_64)" then set_profile_class "Darwin64"
      else if String.eqb last_part "(i386)" then set_profile_class "Darwin32"
      else raise (RuntimeError ("Unknown Darwin Architecture " ++ last_part))
  end.

(** The symbols of one line: only functions and global symbols count. *)
Definition record_symbol (sys_map : gmap string Z) (line : string) : gmap string Z :=
  if Py.contains "N_FUN" line || Py.contains "N_GSYM" line || Py.contains "N_STSYM" line
  then
    match Re.search DLSYM_REGEX line false with
    | Some m =>
        match Py.long16 (Re.group m 1) with
        | Some v => <[Re.group m 2 := v]> sys_map
        | None => sys_map
        end
    | None => sys_map
    end
  else sys_map.

Fixpoint ParseSystemMap_loop (sys_map : gmap string Z) (lines : list string)
  : M vtypes (gmap string Z) :=
  match lines with
  | [] => ret sys_map
  | line :: lines' =>
      let* pc := get_profile_class in
      (if bool_decide (pc = None) && Py.contains "Symbol table for" line
       then detect_architecture line
       else ret tt) ;;
      ParseSystemMap_loop (record_symbol sys_map line) lines'
  end.

Definition ParseSystemMap (system_map : string) : M vtypes (gmap string Z) :=
  ParseSystemMap_loop ∅ (Py.splitlines system_map).

(** [dsymutil$] and [\.vtypes$] *)
Definition re_dsymutil : Re.regex := Re.Cat (Re.Lits "dsymutil") Re.Eol.
Definition re_vtypes : Re.regex := Re.Cat (Re.Lits ".vtypes") Re.Eol.

Definition Convert : M vtypes unit :=
  let* system_map := ProfileConverter.SelectFile re_dsymutil in
  match system_map with
  | Some (String _ _ as system_map) =>
      let* system_map := ParseSystemMap system_map in
      let* vtype_file := ProfileConverter.SelectFile re_vtypes in
      match vtype_file with
      | Some (String _ _ as vtype_file) =>
          let* l := lift (exec vtype_file) in
          let* vt := lift (LinuxConverter.getitem l "mac_types") in
          LinuxConverter.WriteProfile BASE_PROFILE_CLASS system_map vt
      | _ =>
      let* json_file := ProfileConverter.SelectFile LinuxConverter.re_json in
      match json_file with
      | Some (String _ _ as json_file) =>
          let* vt := lift (json_loads json_file) in
          LinuxConverter.WriteProfile BASE_PROFILE_CLASS system_map vt
      | _ => raise (RuntimeError "Unknown profile format.")
      end end
  | _ => raise (RuntimeError "Unknown profile format.")
  end.

End Methods.
End OSXConverter.

(** ** class WindowsConverter(ProfileConverter) *)

Module WindowsConverter.
Section Methods.
Context {vtypes : Type} `{Collaborators vtypes}.

Definition Convert : M vtypes unit :=
  let* pc := get_profile_class in
  match pc with
  | Some (String _ _) =>
      let* i := get_input in
      match i with
      | InPath path =>
          let* code := lift (open_rb path) in
          let* l := lift (exec code) in
          let* vt := lift (LinuxConverter.getitem l "ntkrnlmp_types") in
          ProfileConverter.WriteProfile ∅ vt
      | InArchive _ =>
          raise (TypeError "coercing to Unicode: need string or buffer")
      end
  | _ => raise (RuntimeError "Profile class implementation not provided.")
  end.

End Methods.
End WindowsConverter.

(** ** The dispatcher and the command line *)

Section Dispatch.
Context {vtypes : Type} `{Collaborators vtypes}.

(** The converter classes; [ProfileConverter] itself is abstract. *)
Inductive converter_class : Type :=
| LinuxConverter_cls
| OSXConverter_cls
| WindowsConverter_cls.

(** [cls.Convert] *)
Definition Convert (cls : converter_class) : M vtypes unit :=
  match cls with
  | LinuxConverter_cls => LinuxConverter.Convert
  | OSXConverter_cls => OSXConverter.Convert
  | WindowsConverter_cls => WindowsConverter.Convert
  end.

(** The loop of [ConvertProfile] over the classes still to try; the
    output archive is one object shared by the attempts. *)
Fixpoint ConvertProfile_loop (converters : list converter_class)
    (input : Archive) (out : Output vtypes) : result unit * Output vtypes :=
  match converters with
  | [] => (Raise (RuntimeError "No suitable converter found - profile not recognized."), out)
  | converter :: converters' =>
      match Convert converter (init (InArchive input) out None) with
      | (Ok _, self) => (Ok tt, output self)
      | (Raise e, self) =>
          if is_RuntimeError e
          then ConvertProfile_loop converters' input (output self)
          else (Raise e, output self)
      end
  end.

(** Converts the input profile to a new standard profile in output. *)
Definition ConvertProfile (input : Archive) (out : Output vtypes)
    (profile_class : option string) : result unit * Output vtypes :=
  ConvertProfile_loop [LinuxConverter_cls; OSXConverter_cls] input out.

(** The parsed command line. *)
Record Flags : Type := mkFlags {
  flag_profile_class : option string;
  flag_converter : option string;
  flag_source : string;
  flag_destination : string
}.

(** Modelled from the spec: the registry [ProfileConverter.classes] of
    rekall.registry, used only to look a converter up by its name. *)
Definition classes_get (name : string) : option converter_class :=
  if String.eqb name "LinuxConverter" then Some LinuxConverter_cls
  else if String.eqb name "OSXConverter" then Some OSXConverter_cls
  else if String.eqb name "WindowsConverter" then Some WindowsConverter_cls
  else None.

(** [main]: its result and the output archive, if one was opened. *)
Definition main (flags : Flags) : result unit * option (Output vtypes) :=
  match Factory_w (flag_destination flags) with
  | Raise (IOError _) => (Ok tt, None)
  | Raise e => (Raise e, None)
  | Ok out =>
      if truthy (flag_converter flags) then
        match classes_get (default "" (flag_converter flags)) with
        | None =>
            (Raise (IOError ("Unknown converter " ++ default "" (flag_converter flags))),
             Some out)
        | Some cls =>
            let '(r, self) :=
              Convert cls (init (InPath (flag_source flags)) out (flag_profile_class flags)) in
            (r, Some (output self))
        end
      else
        match Factory_r (flag_source flags) with
        | Raise (IOError _) => (Ok tt, Some out)
        | Raise e => (Raise e, Some out)
        | Ok input =>
            let '(r, out') := ConvertProfile input out None in
            (r, Some out')
        end
  end.

End Dispatch.

(** ** Stand-ins for the collaborators

    Concrete collaborators on which the converters can be run: the type
    table is kept as the text it was read from, every parser succeeds,
    [exec] binds the three names the converters look up, and the files
    that [Factory] can open are given by [fs]. *)

Section TestCollaborators.
Variable fs : list (string * Archive).

Definition test_exec (code : string) : result (gmap string string) :=
  Ok (<["linux_types" := code]> (<["mac_types" := code]> (<["ntkrnlmp_types" := code]> ∅))).

Fixpoint test_Factory_r (l : list (string * Archive)) (path : string) : result Archive :=
  match l with
  | [] => Raise (IOError path)
  | (p, a) :: l' => if String.eqb p path then Ok a else test_Factory_r l' path
  end.

Definition test_collaborators : Collaborators string := {|
  ko_parser := string;
  ko_DWARFParser := fun ko_file => Ok ko_file;
  ko_VType := fun parser => Ok parser;
  dwarfdump_output := fun lines => Ok (String.concat "" lines);
  exec := test_exec;
  json_loads := fun s => Ok s;
  open_rb := fun path => Raise (IOError path);
  Factory_w := fun _ => Ok ∅;
  Factory_r := test_Factory_r fs
|}.

End TestCollaborators.

(** Joins lines with newlines. *)
Definition unlines (lines : list string) : string :=
  String.concat (String Py.LF "") lines.

(** ** Outcomes

    Abbreviations for what the methods leave behind, used to state the
    properties. *)

(** The largest address of a symbol table, stated on the table. *)
Definition largest_of (d : gmap string Z) (mx : Z) : Prop :=
  (exists k, d !! k = Some mx) /\ (forall k v, d !! k = Some v -> v <= mx).

(** A field: a non-empty string with no white space in it. *)
Definition token (w : string) : Prop :=
  w <> EmptyString /\ Forall (fun c => Py.isspace c = false) (list_ascii_of_string w).

(** White space that ends no line: only blanks, none of them \n or \r. *)
Definition blanks (b : string) : Prop :=
  Forall (fun c => Py.isspace c = true /\ c <> Py.LF /\ c <> Py.CR)
    (list_ascii_of_string b).

(** The empty string, or one that starts with white space. *)
Definition starts_space (s : string) : Prop :=
  match s with
  | EmptyString => True
  | String c _ => Py.isspace c = true
  end.

(** A string in which no line ends. *)
Definition no_break (s : string) : Prop :=
  Forall (fun c => c <> Py.LF /\ c <> Py.CR) (list_ascii_of_string s).

(** A word of a dsymutil line: not empty, and with no space in it. *)
Definition word (w : string) : Prop :=
  w <> EmptyString /\ Forall (fun c => c <> " "%char) (list_ascii_of_string w).

(** The number of spaces of a string. *)
Fixpoint spaces (s : string) : nat :=
  match s with
  | EmptyString => O
  | String c s' => (if Ascii.eqb " " c then 1 else 0) + spaces s'
  end.

(** What [[^ ]+] does before the continuation [k]: it runs over the
    characters that are not spaces and offers [k] the longest run
    first, then the shorter ones. *)
Fixpoint greedy_run (k : Re.cont) (pos : nat) (s : string) (caps : Re.captures)
  : option Re.captures :=
  match s with
  | String a s' =>
      if Ascii.eqb " " a then None
      else match greedy_run k (S pos) s' caps with
           | Some c => Some c
           | None => k (S pos) s' caps
           end
  | EmptyString => None
  end.

(** The fields of a line of the system map. *)
Definition fields (line : string) : list string := Py.split (Py.strip line).

(** No line of [lines] records an address for [symbol]. *)
Definition unrecorded (lines : list string) (symbol : string) : Prop :=
  Forall (fun l => forall a t, fields l = [a; t; symbol] -> Py.long16 a = None) lines.

(** The last line of [lines] that records an address for [symbol]
    records [v]. *)
Definition recorded (lines : list string) (symbol : string) (v : Z) : Prop :=
  exists pre line post a t,
    lines = (pre ++ line :: post)%list
    /\ fields line = [a; t; symbol]
    /\ Py.long16 a = Some v
    /\ unrecorded post symbol.

Section Outcomes.
Context {vtypes : Type}.

(** The output archive after the three [StoreData] calls. *)
Definition stored (system_map : gmap string Z) (vt : vtypes)
    (pc : option string) (o : Output vtypes) : Output vtypes :=
  StoreData "metadata" (MetadataData pc "Constants.json" "vtypes.json")
    (StoreData "vtypes.json" (VTypesData vt)
       (StoreData "Constants.json" (ConstantsData system_map) o)).

(** The result of the architecture test on a header line. *)
Definition header_result (sys_map : gmap string Z) (lines : list string)
    (i : input_handle) (o : Output vtypes) (last_part : string)
  : result (gmap string Z) * Converter vtypes :=
  if String.eqb last_part "(x86_64)"
  then (Ok (foldl OSXConverter.record_symbol sys_map lines),
        mkConverter i o (Some "Darwin64"))
  else if String.eqb last_part "(i386)"
  then (Ok (foldl OSXConverter.record_symbol sys_map lines),
        mkConverter i o (Some "Darwin32"))
  else (Raise (RuntimeError ("Unknown Darwin Architecture " ++ last_part)%string),
        mkConverter i o None).

End Outcomes.

(** ** Sample archives

    Small archives on which the converters are run below, with the
    stand-ins for the collaborators. *)

Module Runs.

Definition C : Collaborators string := test_collaborators [].

Definition empty_output : Output string := ∅.

(** A System.map with a line of two fields. *)
Definition short_line_map : string :=
  unlines ["c0100000 T _text"; "c0100004 T"].
Definition short_line_archive : Archive :=
  [("boot/System.map", short_line_map); ("vtypes.json", "{}")].

(** A System.map whose largest address is 2^32. *)
Definition top_2_32_archive : Archive :=
  [("boot/System.map", unlines ["c0100000 T _text"; "100000000 D top"]);
   ("vtypes.json", "{}")].
Definition top_2_32_table : gmap string Z :=
  <["top" := 2 ^ 32]> (<["_text" := 3222274048]> ∅).

(** A System.map with small addresses. *)
Definition small_archive : Archive :=
  [("boot/System.map", unlines ["c0100000 T _text"; "ffff D low"]);
   ("vtypes.json", "{}")].

(** A System.map whose only address is zero, and one with no address. *)
Definition zero_archive : Archive :=
  [("System.map", "0 T start"); ("vtypes.json", "{}")].
Definition zero_table : gmap string Z := <["start" := 0]> ∅.
Definition no_address_archive : Archive :=
  [("System.map", "zz T start"); ("vtypes.json", "{}")].

(** A System.map with a kernel module. *)
Definition module_archive : Archive :=
  [("System.map", "c0100000 T _text"); ("README", "text");
   ("lib/Module.KO", "ELF-1"); ("extra.ko", "ELF-2")].

(** Darwin archives: a header for each architecture field, and none. *)
Definition dsymutil_text (header : list string) : string :=
  unlines (header ++
    ["[  12] 0001 24 (N_FUN ) 01 0000 ffffff8000200000 '_start'";
     "[  13] 0002 20 (N_GSYM ) 00 0000 0000000000000000 '_version'"])%list.
Definition darwin_archive (header : list string) : Archive :=
  [("10.8.3.dsymutil", dsymutil_text header); ("10.8.3.json", "{}")].
Definition header_x86_64 : string := "Symbol table for: 'mach_kernel' (x86_64)".
Definition header_i386 : string := "Symbol table for: 'mach_kernel' (i386)".
Definition header_ppc : string := "Symbol table for: 'mach_kernel' (ppc)".

End Runs.

(** ** More stand-ins and sample archives *)

Module MoreRuns.

(** Collaborators with files to open: [exec] binds the one name that
    its code consists of, and [open] reads from [files]. *)
Fixpoint read_file (files : list (string * string)) (path : string) : result string :=
  match files with
  | [] => Raise (IOError path)
  | (p, data) :: files' => if String.eqb p path then Ok data else read_file files' path
  end.

Definition file_collaborators (files : list (string * string)) : Collaborators string := {|
  ko_parser := string;
  ko_DWARFParser := fun ko_file => Ok ko_file;
  ko_VType := fun parser => Ok parser;
  dwarfdump_output := fun lines => Ok (String.concat "" lines);
  exec := fun code => Ok (<[code := code]> ∅);
  json_loads := fun s => Ok s;
  open_rb := read_file files;
  Factory_w := fun _ => Ok ∅;
  Factory_r := fun path => Raise (IOError path)
|}.

(** An output archive that already holds an entry. *)
Definition used_output : Output string := <["notes.txt" := RawData "kept"]> ∅.

(** A System.map that names a symbol twice, around a bad address. *)
Definition twice_map : string :=
  unlines ["c0100000 T _text"; "zz T _text"; "c0100004 T _text"; "zz D other"].

(** An archive whose first System.map is empty. *)
Definition empty_marker_archive : Archive :=
  [("System.map", ""); ("boot/System.map", "c0100000 T _text"); ("vtypes.json", "{}")].

(** An archive with no marker. *)
Definition plain_archive : Archive := [("README", "text"); ("vtypes.json", "{}")].


End MoreRuns.

(** * Properties *)

Local Open Scope list_scope.

(** ** The maximum of the addresses *)

Lemma foldl_max_ge (l : list Z) (x : Z) : x <= foldl Z.max x l.
Proof.
  revert x. induction l as [|y l IH]; intros x; simpl; [lia|].
  specialize (IH (Z.max x y)). lia.
Qed.

Lemma foldl_max_upper (l : list Z) (x : Z) :
  forall y, y ∈ l -> y <= foldl Z.max x l.
Proof.
  revert x. induction l as [|z l IH]; intros x y Hy; simpl.
  - inversion Hy.
  - apply elem_of_cons in Hy as [->|Hy].
    + pose proof (foldl_max_ge l (Z.max x z)). lia.
    + now apply IH.
Qed.

Lemma foldl_max_elem (l : list Z) (x : Z) :
  foldl Z.max x l = x \/ foldl Z.max x l ∈ l.
Proof.
  revert x. induction l as [|z l IH]; intros x; simpl; [now left|].
  destruct (IH (Z.max x z)) as [E|E].
  - rewrite E. destruct (Z.max_spec x z) as [[_ ->]|[_ ->]].
    + right. left.
    + now left.
  - right. now right.
Qed.

(** [py_max] returns an element that bounds all the others, and raises
    on the empty list only. *)
Lemma py_max_spec (l : list Z) (mx : Z) :
  py_max l = Ok mx <-> mx ∈ l /\ (forall y, y ∈ l -> y <= mx).
Proof.
  destruct l as [|x l]; simpl.
  - split; [discriminate|]. intros [Hm _]. inversion Hm.
  - split.
    + intros [= <-]. split.
      * destruct (foldl_max_elem l x) as [->|E]; [left|now right].
      * intros y Hy. apply elem_of_cons in Hy as [->|Hy].
        -- apply foldl_max_ge.
        -- now apply foldl_max_upper.
    + intros [Hm Hub]. f_equal.
      assert (x <= foldl Z.max x l) by apply foldl_max_ge.
      assert (foldl Z.max x l <= mx).
      { destruct (foldl_max_elem l x) as [->|E]; apply Hub; [left|now right]. }
      assert (mx <= foldl Z.max x l).
      { apply elem_of_cons in Hm as [->|Hm]; [easy|now apply foldl_max_upper]. }
      lia.
Qed.

Lemma elem_of_values (d : gmap string Z) (v : Z) :
  v ∈ values d <-> exists k, d !! k = Some v.
Proof.
  unfold values. rewrite list_elem_of_fmap. split.
  - intros [[k v'] [-> Hin]]. exists k. now apply elem_of_map_to_list in Hin.
  - intros [k Hk]. exists (k, v). split; [easy|]. now apply elem_of_map_to_list.
Qed.

Lemma values_nil (d : gmap string Z) : values d = [] <-> d = ∅.
Proof.
  unfold values. split.
  - intros E. apply fmap_nil_inv in E. now apply map_to_list_empty_iff in E.
  - intros ->. now rewrite map_to_list_empty.
Qed.

Lemma py_max_values (d : gmap string Z) (mx : Z) :
  py_max (values d) = Ok mx <-> largest_of d mx.
Proof.
  rewrite py_max_spec. unfold largest_of. rewrite elem_of_values. split.
  - intros [Hm Hub]. split; [easy|]. intros k v Hk. apply Hub, elem_of_values. eauto.
  - intros [Hm Hub]. split; [easy|]. intros y Hy. apply elem_of_values in Hy as [k Hk]. eauto.
Qed.

Lemma py_max_empty : py_max (values ∅) = Raise (ValueError "max() arg is an empty sequence").
Proof. reflexivity. Qed.

Lemma py_max_nonempty (d : gmap string Z) :
  d <> ∅ -> exists mx, py_max (values d) = Ok mx.
Proof.
  intros Hne. destruct (values d) as [|x l] eqn:E.
  - apply values_nil in E. contradiction.
  - eexists. reflexivity.
Qed.

Section Properties.
Context {vtypes : Type} `{Collaborators vtypes}.

(** ** The shared writer *)

Lemma stored_metadata system_map (vt : vtypes) pc o :
  stored system_map vt pc o !! "metadata"
  = Some (MetadataData pc "Constants.json" "vtypes.json").
Proof. unfold stored, StoreData, Output. apply lookup_insert_eq. Qed.

Lemma stored_Constants system_map (vt : vtypes) pc o :
  stored system_map vt pc o !! "Constants.json" = Some (ConstantsData system_map).
Proof.
  unfold stored, StoreData, Output.
  rewrite lookup_insert_ne by discriminate.
  rewrite lookup_insert_ne by discriminate.
  apply lookup_insert_eq.
Qed.

Lemma stored_other system_map (vt : vtypes) pc o name :
  name <> "metadata" -> name <> "vtypes.json" -> name <> "Constants.json" ->
  stored system_map vt pc o !! name = o !! name.
Proof.
  intros H1 H2 H3. unfold stored, StoreData, Output.
  rewrite !lookup_insert_ne by congruence. reflexivity.
Qed.

Lemma ProfileConverter_WriteProfile_eq system_map (vt : vtypes) i o pc :
  ProfileConverter.WriteProfile system_map vt (mkConverter i o pc)
  = (Ok tt, mkConverter i (stored system_map vt pc o) pc).
Proof. reflexivity. Qed.

(** With a class already set, the Linux writer infers nothing. *)
Lemma LinuxConverter_WriteProfile_Some base system_map (vt : vtypes) i o c :
  LinuxConverter.WriteProfile base system_map vt (mkConverter i o (Some c))
  = (Ok tt, mkConverter i (stored system_map vt (Some c) o) (Some c)).
Proof. reflexivity. Qed.

(** With no class, it takes the largest address, or raises when there is
    none. *)
Lemma LinuxConverter_WriteProfile_None base system_map (vt : vtypes) i o :
  LinuxConverter.WriteProfile base system_map vt (mkConverter i o None)
  = match py_max (values system_map) with
    | Ok largest_offset =>
        let c := (base ++ if largest_offset >? 2 ^ 32 then "64" else "32")%string in
        (Ok tt, mkConverter i (stored system_map vt (Some c) o) (Some c))
    | Raise e => (Raise e, mkConverter i o None)
    end.
Proof.
  unfold LinuxConverter.WriteProfile, bind, get_profile_class, lift. simpl.
  destruct (py_max (values system_map)) as [mx|e]; [|reflexivity].
  destruct (mx >? 2 ^ 32); reflexivity.
Qed.

(** ** SelectFile *)

Lemma Open_first (pre post : Archive) (f data : string) :
  Forall (fun e => e.1 <> f) pre ->
  Open (pre ++ (f, data) :: post) f = Ok data.
Proof.
  induction pre as [|[n d] pre IH]; intros Hpre; simpl.
  - now rewrite String.eqb_refl.
  - inversion Hpre as [|? ? Hn Hrest]; subst. simpl in Hn.
    destruct (String.eqb_spec n f) as [->|_]; [contradiction|]. now apply IH.
Qed.

Lemma SelectFile_loop_skip (a pre : Archive) (files : list string) (regex : Re.regex) :
  Forall (fun e => Re.search regex e.1 true = None) pre ->
  ProfileConverter.SelectFile_loop a regex (ListFiles pre ++ files)
  = ProfileConverter.SelectFile_loop a regex files.
Proof.
  induction pre as [|[n d] pre IH]; intros Hpre; simpl; [reflexivity|].
  inversion Hpre as [|? ? Hn Hrest]; subst. simpl in Hn. rewrite Hn.
  now apply IH.
Qed.

Lemma SelectFile_loop_first (pre post : Archive) (f data : string) (regex : Re.regex) :
  Forall (fun e => Re.search regex e.1 true = None) pre ->
  Re.search regex f true <> None ->
  let a := pre ++ (f, data) :: post in
  ProfileConverter.SelectFile_loop a regex (ListFiles a) = Ok (Some data).
Proof.
  intros Hpre Hf a.
  replace (ListFiles a) with (ListFiles pre ++ f :: ListFiles post)
    by (unfold a, ListFiles; now rewrite fmap_app).
  rewrite (SelectFile_loop_skip a pre _ regex Hpre). simpl.
  destruct (Re.search regex f true) as [m|] eqn:E; [|contradiction].
  unfold a. rewrite Open_first; [reflexivity|].
  eapply Forall_impl; [exact Hpre|]. simpl. intros e He Ee.
  rewrite Ee in He. congruence.
Qed.

Lemma SelectFile_loop_none (a : Archive) (regex : Re.regex) :
  Forall (fun e => Re.search regex e.1 true = None) a ->
  ProfileConverter.SelectFile_loop a regex (ListFiles a) = Ok None.
Proof.
  intros Ha. rewrite <- (app_nil_r (ListFiles a)).
  now rewrite (SelectFile_loop_skip a a [] regex Ha).
Qed.

(** C9. For every input archive and every pattern, searched without
    regard to case, [SelectFile] returns the contents of the first entry,
    in the listed order, whose name matches, and returns [None] without
    raising when no name matches; the converter is left as it was. *)
Theorem SelectFile_first_match (regex : Re.regex) (a : Archive)
    (out : Output vtypes) (pc : option string) :
  let self := init (InArchive a) out pc in
  (forall pre f data post,
      a = pre ++ (f, data) :: post ->
      Forall (fun e => Re.search regex e.1 true = None) pre ->
      Re.search regex f true <> None ->
      ProfileConverter.SelectFile regex self = (Ok (Some data), self))
  /\ (Forall (fun e => Re.search regex e.1 true = None) a ->
      ProfileConverter.SelectFile regex self = (Ok None, self)).
Proof.
  intros self. split.
  - intros pre f data post -> Hpre Hf.
    unfold ProfileConverter.SelectFile, bind, get_input, lift. simpl.
    now rewrite SelectFile_loop_first.
  - intros Ha.
    unfold ProfileConverter.SelectFile, bind, get_input, lift. simpl.
    now rewrite SelectFile_loop_none.
Qed.

(** ** LinuxConverter.ParseSystemMap *)

Lemma unpack_error_ValueError (fields : list string) :
  exists msg, LinuxConverter.unpack_error fields = ValueError msg.
Proof.
  destruct fields as [|a [|b [|c fields]]]; simpl; eauto.
Qed.

(** The loop stops with a [ValueError] at the first line that does not
    split into three fields. *)
Lemma LinuxConverter_ParseSystemMap_loop_raises (lines : list string) :
  forall sys_map,
  Exists (fun line => length (Py.split (Py.strip line)) <> 3%nat) lines ->
  exists msg, LinuxConverter.ParseSystemMap_loop sys_map lines = Raise (ValueError msg).
Proof.
  induction lines as [|line lines IH]; intros sys_map Hex.
  - inversion Hex.
  - simpl.
    destruct (Py.split (Py.strip line)) as [|a [|b [|c [|d fields]]]] eqn:E;
      try (eexists; reflexivity).
    apply Exists_cons in Hex as [Hbad|Hex]; [now rewrite E in Hbad|].
    destruct (Py.long16 a); now apply IH.
Qed.

(** A line of three fields whose address is not hexadecimal is skipped,
    and one whose address is hexadecimal is recorded. *)
Lemma LinuxConverter_ParseSystemMap_loop_step (line : string) (lines : list string)
    (sys_map : gmap string Z) (address type symbol : string) :
  Py.split (Py.strip line) = [address; type; symbol] ->
  LinuxConverter.ParseSystemMap_loop sys_map (line :: lines)
  = LinuxConverter.ParseSystemMap_loop
      (match Py.long16 address with
       | Some v => <[symbol := v]> sys_map
       | None => sys_map
       end) lines.
Proof.
  intros E. simpl. rewrite E. now destruct (Py.long16 address).
Qed.

(** C1. A line of the system map that does not split into exactly three
    fields is not skipped: the unpacking of the fields raises a
    [ValueError] outside the [try], the parse stops there, and the
    dispatcher, which catches [RuntimeError] only, lets the failure
    through instead of completing the conversion. *)
Theorem LinuxConverter_ParseSystemMap_malformed_line_raises (system_map : string) :
  Exists (fun line => length (Py.split (Py.strip line)) <> 3%nat)
    (Py.splitlines system_map) ->
  exists msg,
    (forall self : Converter vtypes,
        LinuxConverter.ParseSystemMap system_map self = (Raise (ValueError msg), self))
    /\ (forall (a : Archive) (out : Output vtypes) pc,
        ProfileConverter.SelectFile LinuxConverter.re_System_map
          (init (InArchive a) out None)
        = (Ok (Some system_map), init (InArchive a) out None) ->
        ConvertProfile a out pc = (Raise (ValueError msg), out)).
Proof.
  intros Hex.
  destruct (LinuxConverter_ParseSystemMap_loop_raises _ ∅ Hex) as [msg Hmsg].
  exists msg. split.
  - intros self. unfold LinuxConverter.ParseSystemMap, lift. now rewrite Hmsg.
  - intros a out pc Hsel.
    unfold ConvertProfile. cbn [ConvertProfile_loop Convert].
    unfold LinuxConverter.Convert.
    unfold init, ProfileConverter.SelectFile, LinuxConverter.ParseSystemMap,
      bind, get_input, lift in *.
    cbn [input] in *. injection Hsel as Hsel. rewrite Hsel.
    destruct system_map as [|c0 s0]; [inversion Hex|].
    now rewrite Hmsg.
Qed.

(** ** Convert, up to the call of WriteProfile *)

Ltac run_monad :=
  unfold ProfileConverter.SelectFile, LinuxConverter.ParseSystemMap,
    bind, lift, ret, raise, get_input, update_output, init;
  cbn [input output profile_class].

(** Case analysis on every test that the goal makes. *)
Ltac split_cases :=
  repeat (cbn [input output profile_class];
          match goal with
          | |- context [match ?x with _ => _ end] => destruct x eqn:?
          end);
  cbn [input output profile_class].

(** What [LinuxConverter.Convert] does before it calls [WriteProfile]
    does not depend on the profile class: it either raises, or reaches
    [WriteProfile] with a symbol table and a type table. *)
Lemma LinuxConverter_Convert_split (a : Archive) (out : Output vtypes) :
  exists (r : result (gmap string Z * vtypes)) (out1 : Output vtypes),
  forall pc,
    LinuxConverter.Convert (mkConverter (InArchive a) out pc)
    = match r with
      | Ok (system_map, vt) =>
          LinuxConverter.WriteProfile "Linux" system_map vt
            (mkConverter (InArchive a) out1 pc)
      | Raise e => (Raise e, mkConverter (InArchive a) out1 pc)
      end.
Proof.
  unfold LinuxConverter.Convert. run_monad.
  split_cases.
  all: first
    [ eexists (Ok (_, _)), _; intros pc; reflexivity
    | eexists (Raise _), _; intros pc; reflexivity ].
Qed.

(** ** OSXConverter.ParseSystemMap *)

(** Recording symbols never fails; the only part of the loop that can
    raise or change the converter is the architecture test. *)
Lemma OSXConverter_ParseSystemMap_loop_known (lines : list string) :
  forall sys_map i (o : Output vtypes) c,
  OSXConverter.ParseSystemMap_loop sys_map lines (mkConverter i o (Some c))
  = (Ok (foldl OSXConverter.record_symbol sys_map lines), mkConverter i o (Some c)).
Proof.
  induction lines as [|line lines IH]; intros sys_map i o c; [reflexivity|].
  cbn [OSXConverter.ParseSystemMap_loop foldl].
  unfold bind, get_profile_class. cbn [profile_class].
  rewrite bool_decide_eq_false_2 by discriminate.
  cbn [andb]. unfold ret. apply IH.
Qed.

Lemma OSXConverter_ParseSystemMap_loop_no_header (lines : list string) :
  forall sys_map i (o : Output vtypes),
  Forall (fun line => Py.contains "Symbol table for" line = false) lines ->
  OSXConverter.ParseSystemMap_loop sys_map lines (mkConverter i o None)
  = (Ok (foldl OSXConverter.record_symbol sys_map lines), mkConverter i o None).
Proof.
  induction lines as [|line lines IH]; intros sys_map i o Hno; [reflexivity|].
  inversion Hno as [|? ? Hline Hrest]; subst.
  cbn [OSXConverter.ParseSystemMap_loop foldl].
  unfold bind, get_profile_class. cbn [profile_class].
  rewrite Hline, andb_false_r. unfold ret. now apply IH.
Qed.

Lemma OSXConverter_ParseSystemMap_loop_header (pre : list string) :
  forall sys_map line post i (o : Output vtypes) last_part,
  Forall (fun line => Py.contains "Symbol table for" line = false) pre ->
  Py.contains "Symbol table for" line = true ->
  last (Py.split line) = Some last_part ->
  OSXConverter.ParseSystemMap_loop sys_map (pre ++ line :: post) (mkConverter i o None)
  = header_result sys_map (pre ++ line :: post) i o last_part.
Proof.
  induction pre as [|l pre IH]; intros sys_map line post i o last_part Hpre Hline Hlast.
  - cbn [app OSXConverter.ParseSystemMap_loop].
    unfold bind at 1, get_profile_class. cbn [profile_class].
    rewrite bool_decide_eq_true_2 by reflexivity. rewrite Hline. cbn [andb].
    unfold bind, OSXConverter.detect_architecture, header_result. rewrite Hlast.
    destruct (String.eqb last_part "(x86_64)").
    { unfold set_profile_class. cbn [input output profile_class].
      now rewrite OSXConverter_ParseSystemMap_loop_known. }
    destruct (String.eqb last_part "(i386)").
    { unfold set_profile_class. cbn [input output profile_class].
      now rewrite OSXConverter_ParseSystemMap_loop_known. }
    reflexivity.
  - inversion Hpre as [|? ? Hl Hrest]; subst.
    cbn [app OSXConverter.ParseSystemMap_loop].
    unfold bind at 1, get_profile_class. cbn [profile_class].
    rewrite Hl, andb_false_r. unfold bind, ret.
    rewrite (IH _ line post i o last_part Hrest Hline Hlast).
    unfold header_result. cbn [foldl]. reflexivity.
Qed.

(** The parse changes the profile class only. *)
Lemma OSXConverter_ParseSystemMap_loop_frame (lines : list string) :
  forall sys_map i (o : Output vtypes) pc,
  exists r pc',
    OSXConverter.ParseSystemMap_loop sys_map lines (mkConverter i o pc)
    = (r, mkConverter i o pc').
Proof.
  induction lines as [|line lines IH]; intros sys_map i o pc.
  - eexists _, _. reflexivity.
  - destruct pc as [c|].
    + rewrite OSXConverter_ParseSystemMap_loop_known. eauto.
    + cbn [OSXConverter.ParseSystemMap_loop].
      unfold bind at 1, get_profile_class. cbn [profile_class].
      rewrite bool_decide_eq_true_2 by reflexivity.
      destruct (Py.contains "Symbol table for" line); cbn [andb].
      * unfold bind, OSXConverter.detect_architecture.
        destruct (last (Py.split line)) as [t|]; [|unfold raise; eauto].
        destruct (String.eqb t "(x86_64)").
        { unfold set_profile_class. cbn [input output profile_class]. apply IH. }
        destruct (String.eqb t "(i386)").
        { unfold set_profile_class. cbn [input output profile_class]. apply IH. }
        unfold raise. eauto.
      * unfold bind, ret. apply IH.
Qed.

(** A line that contains the header text has a last field. *)
Lemma split_nonempty (s : string) :
  Py.split s = [] -> forall c, c ∈ list_ascii_of_string s -> Py.isspace c = true.
Proof.
  induction s as [|a s IH]; intros Hs c Hc; [inversion Hc|].
  simpl in Hs, Hc.
  destruct (Py.isspace a) eqn:Ea.
  - apply elem_of_cons in Hc as [->|Hc]; [exact Ea|now apply IH].
  - destruct s as [|b s]; [discriminate|].
    destruct (Py.isspace b); [discriminate|].
    destruct (Py.split (String b s)); discriminate.
Qed.

Lemma startswith_elem (p s : string) c :
  Py.startswith p s = true -> c ∈ list_ascii_of_string p -> c ∈ list_ascii_of_string s.
Proof.
  revert s. induction p as [|a p IH]; intros s Hp Hc; [inversion Hc|].
  destruct s as [|b s]; [discriminate|]. simpl in Hp.
  apply andb_prop in Hp as [Hab Hp]. apply Ascii.eqb_eq in Hab as ->.
  simpl in Hc |- *. apply elem_of_cons in Hc as [->|Hc]; [left|right; eauto].
Qed.

Lemma contains_elem (p s : string) c :
  Py.contains p s = true -> c ∈ list_ascii_of_string p -> c ∈ list_ascii_of_string s.
Proof.
  induction s as [|b s IH]; intros Hp Hc.
  - simpl in Hp. rewrite orb_false_r in Hp. eapply startswith_elem; eauto.
  - simpl in Hp. apply orb_prop in Hp as [Hp|Hp].
    + eapply startswith_elem; eauto.
    + simpl. right. now apply IH.
Qed.

Lemma header_has_last_part (line : string) :
  Py.contains "Symbol table for" line = true ->
  exists last_part, last (Py.split line) = Some last_part.
Proof.
  intros Hc. destruct (Py.split line) as [|w ws] eqn:E.
  - pose proof (split_nonempty line E "S"%char) as Hsp.
    assert (Hin : "S"%char ∈ list_ascii_of_string line).
    { eapply contains_elem; [exact Hc|]. simpl. left. }
    specialize (Hsp Hin). discriminate.
  - destruct (last (w :: ws)) eqn:El; [eauto|].
    apply last_None in El. discriminate.
Qed.

(** What [OSXConverter.Convert] does after the parse is the same for
    every converter on the archive: a type table [r], or a failure. *)
Lemma OSXConverter_Convert_split (a : Archive) :
  exists r : result vtypes,
  forall (out : Output vtypes) pc,
    OSXConverter.Convert (mkConverter (InArchive a) out pc)
    = match ProfileConverter.SelectFile_loop a OSXConverter.re_dsymutil (ListFiles a) with
      | Ok (Some (String c s)) =>
          match OSXConverter.ParseSystemMap (String c s) (mkConverter (InArchive a) out pc) with
          | (Ok system_map, self1) =>
              match r with
              | Ok vt => LinuxConverter.WriteProfile "Darwin" system_map vt self1
              | Raise e => (Raise e, self1)
              end
          | (Raise e, self1) => (Raise e, self1)
          end
      | Ok _ => (Raise (RuntimeError "Unknown profile format."),
                 mkConverter (InArchive a) out pc)
      | Raise e => (Raise e, mkConverter (InArchive a) out pc)
      end.
Proof.
  exists
    (match ProfileConverter.SelectFile_loop a OSXConverter.re_vtypes (ListFiles a) with
     | Ok (Some (String c s)) =>
         match exec (String c s) with
         | Ok l => LinuxConverter.getitem l "mac_types"
         | Raise e => Raise e
         end
     | Ok _ =>
         match ProfileConverter.SelectFile_loop a LinuxConverter.re_json (ListFiles a) with
         | Ok (Some (String c s)) => json_loads (String c s)
         | Ok _ => Raise (RuntimeError "Unknown profile format.")
         | Raise e => Raise e
         end
     | Raise e => Raise e
     end).
  intros out pc. unfold OSXConverter.Convert. run_monad.
  destruct (ProfileConverter.SelectFile_loop a OSXConverter.re_dsymutil (ListFiles a))
    as [[[|c s]|]|e]; try reflexivity.
  unfold OSXConverter.ParseSystemMap.
  destruct (OSXConverter_ParseSystemMap_loop_frame
              (Py.splitlines (String c s)) ∅ (InArchive a) out pc) as (r0 & pc' & ->).
  destruct r0 as [m|e]; [|reflexivity].
  split_cases; reflexivity.
Qed.

(** Once the parse has set a class, a Darwin conversion that completes
    writes that class. *)
Lemma OSXConverter_Convert_parsed_class (a : Archive) (out : Output vtypes)
    (pc : option string) (text : string) (system_map : gmap string Z) (c : string) :
  let self := init (InArchive a) out pc in
  ProfileConverter.SelectFile OSXConverter.re_dsymutil self = (Ok (Some text), self) ->
  text <> EmptyString ->
  OSXConverter.ParseSystemMap text self
  = (Ok system_map, init (InArchive a) out (Some c)) ->
  forall self', OSXConverter.Convert self = (Ok tt, self') ->
    profile_class self' = Some c
    /\ output self' !! "metadata"
       = Some (MetadataData (Some c) "Constants.json" "vtypes.json").
Proof.
  intros self Hsel Hne Hparse self' Hconv.
  destruct (OSXConverter_Convert_split a) as [r Hsplit].
  unfold self, init in *. rewrite Hsplit in Hconv.
  unfold ProfileConverter.SelectFile, bind, get_input, lift in Hsel.
  cbn [input] in Hsel. injection Hsel as Hsel. rewrite Hsel in Hconv.
  destruct text as [|c0 s0]; [contradiction|].
  rewrite Hparse in Hconv.
  destruct r as [vt|e]; [|discriminate].
  rewrite LinuxConverter_WriteProfile_Some in Hconv.
  injection Hconv as <-. cbn [profile_class output].
  split; [reflexivity|apply stored_metadata].
Qed.

(** An unknown architecture field fails the parse and the conversion. *)
Lemma OSXConverter_Convert_unknown_architecture
    (a : Archive) (out : Output vtypes) (text : string)
    (pre post : list string) (line last_part : string) :
  let self := init (InArchive a) out None in
  ProfileConverter.SelectFile OSXConverter.re_dsymutil self = (Ok (Some text), self) ->
  Py.splitlines text = pre ++ line :: post ->
  Forall (fun l => Py.contains "Symbol table for" l = false) pre ->
  Py.contains "Symbol table for" line = true ->
  last (Py.split line) = Some last_part ->
  last_part <> "(x86_64)" -> last_part <> "(i386)" ->
  OSXConverter.ParseSystemMap text self
  = (Raise (RuntimeError ("Unknown Darwin Architecture " ++ last_part)%string), self)
  /\ OSXConverter.Convert self
     = (Raise (RuntimeError ("Unknown Darwin Architecture " ++ last_part)%string), self).
Proof.
  intros self Hsel Hlines Hpre Hline Hlast H64 H32.
  assert (Hne : text <> EmptyString).
  { intros ->. destruct pre; discriminate. }
  assert (Hparse : OSXConverter.ParseSystemMap text self
    = (Raise (RuntimeError ("Unknown Darwin Architecture " ++ last_part)%string), self)).
  { unfold OSXConverter.ParseSystemMap. rewrite Hlines.
    unfold self, init.
    rewrite (OSXConverter_ParseSystemMap_loop_header pre ∅ line post _ _ last_part)
      by assumption.
    unfold header_result.
    destruct (String.eqb_spec last_part "(x86_64)"); [contradiction|].
    destruct (String.eqb_spec last_part "(i386)"); [contradiction|].
    reflexivity. }
  split; [exact Hparse|].
  destruct (OSXConverter_Convert_split a) as [r Hconv].
  unfold self, init. rewrite Hconv.
  unfold self, init, ProfileConverter.SelectFile, bind, get_input, lift in Hsel.
  cbn [input] in Hsel. injection Hsel as Hsel. rewrite Hsel.
  destruct text as [|c s]; [contradiction|].
  fold (init (InArchive a) out None). fold self. now rewrite Hparse.
Qed.

(** C7. With no explicit profile class, the first line of the dsymutil
    text that contains ["Symbol table for"] decides the class by its last
    field: [(x86_64)] sets Darwin64 and [(i386)] sets Darwin32, which
    is the class written when the conversion completes; with any other
    field the parse, and with it the Darwin conversion, raises the
    unknown-architecture failure. *)
Theorem OSXConverter_ParseSystemMap_architecture
    (a : Archive) (out : Output vtypes) (text : string)
    (pre post : list string) (line last_part : string) :
  let self := init (InArchive a) out None in
  ProfileConverter.SelectFile OSXConverter.re_dsymutil self = (Ok (Some text), self) ->
  Py.splitlines text = pre ++ line :: post ->
  Forall (fun l => Py.contains "Symbol table for" l = false) pre ->
  Py.contains "Symbol table for" line = true ->
  last (Py.split line) = Some last_part ->
  (last_part = "(x86_64)" ->
     (exists system_map,
        OSXConverter.ParseSystemMap text self
        = (Ok system_map, init (InArchive a) out (Some "Darwin64")))
     /\ (forall self', OSXConverter.Convert self = (Ok tt, self') ->
         output self' !! "metadata"
         = Some (MetadataData (Some "Darwin64") "Constants.json" "vtypes.json")))
  /\ (last_part = "(i386)" ->
     (exists system_map,
        OSXConverter.ParseSystemMap text self
        = (Ok system_map, init (InArchive a) out (Some "Darwin32")))
     /\ (forall self', OSXConverter.Convert self = (Ok tt, self') ->
         output self' !! "metadata"
         = Some (MetadataData (Some "Darwin32") "Constants.json" "vtypes.json")))
  /\ (last_part <> "(x86_64)" -> last_part <> "(i386)" ->
     OSXConverter.ParseSystemMap text self
     = (Raise (RuntimeError ("Unknown Darwin Architecture " ++ last_part)%string), self)
     /\ OSXConverter.Convert self
        = (Raise (RuntimeError ("Unknown Darwin Architecture " ++ last_part)%string), self)).
Proof.
  intros self Hsel Hlines Hpre Hline Hlast.
  assert (Hne : text <> EmptyString).
  { intros ->. destruct pre; discriminate. }
  assert (Hparse : OSXConverter.ParseSystemMap text self
                   = header_result ∅ (pre ++ line :: post) (InArchive a) out last_part).
  { unfold OSXConverter.ParseSystemMap. rewrite Hlines.
    now apply OSXConverter_ParseSystemMap_loop_header. }
  split; [|split].
  - intros ->. unfold header_result in Hparse. simpl in Hparse. split; [eauto|].
    intros self' Hconv.
    now apply (OSXConverter_Convert_parsed_class a out None text _ _ Hsel Hne Hparse self').
  - intros ->. unfold header_result in Hparse. simpl in Hparse. split; [eauto|].
    intros self' Hconv.
    now apply (OSXConverter_Convert_parsed_class a out None text _ _ Hsel Hne Hparse self').
  - intros H64 H32.
    now apply (OSXConverter_Convert_unknown_architecture a out text pre post line).
Qed.

(** C10. On an archive that the Darwin variant converts when it is given
    a class (the dsymutil marker and a type table are there), and whose
    dsymutil text has no ["Symbol table for"] line, a conversion with no
    explicit class does not fail in the parse and leaves the class
    unset; the writer inherited from the Linux variant then infers it
    from the largest parsed address: Darwin64 if it exceeds 2^32,
    Darwin32 otherwise. *)
Theorem OSXConverter_fallback_inference
    (a : Archive) (out : Output vtypes) (c text : string) (s1 : Converter vtypes) :
  let self := init (InArchive a) out None in
  OSXConverter.Convert (init (InArchive a) out (Some c)) = (Ok tt, s1) ->
  ProfileConverter.SelectFile OSXConverter.re_dsymutil self = (Ok (Some text), self) ->
  Forall (fun l => Py.contains "Symbol table for" l = false) (Py.splitlines text) ->
  exists system_map,
    OSXConverter.ParseSystemMap text self = (Ok system_map, self)
    /\ forall largest_offset, largest_of system_map largest_offset ->
       exists self',
         OSXConverter.Convert self = (Ok tt, self')
         /\ output self' !! "metadata"
            = Some (MetadataData
                      (Some (if largest_offset >? 2 ^ 32 then "Darwin64" else "Darwin32"))
                      "Constants.json" "vtypes.json").
Proof.
  intros self Hexplicit Hsel Hno.
  exists (foldl OSXConverter.record_symbol ∅ (Py.splitlines text)).
  assert (Hparse : OSXConverter.ParseSystemMap text self
    = (Ok (foldl OSXConverter.record_symbol ∅ (Py.splitlines text)), self)).
  { unfold OSXConverter.ParseSystemMap, self, init.
    now apply OSXConverter_ParseSystemMap_loop_no_header. }
  split; [exact Hparse|].
  intros mx Hmx. apply py_max_values in Hmx.
  destruct (OSXConverter_Convert_split a) as [r Hsplit].
  unfold self, init in *. rewrite Hsplit in Hexplicit. rewrite Hsplit.
  unfold ProfileConverter.SelectFile, bind, get_input, lift in Hsel.
  cbn [input] in Hsel. injection Hsel as Hsel. rewrite Hsel in Hexplicit |- *.
  destruct text as [|c0 s0]; [discriminate|].
  rewrite Hparse.
  unfold OSXConverter.ParseSystemMap in Hexplicit.
  rewrite OSXConverter_ParseSystemMap_loop_known in Hexplicit.
  destruct r as [vt|e]; [|discriminate].
  rewrite LinuxConverter_WriteProfile_None, Hmx. cbn zeta.
  eexists. split; [reflexivity|]. cbn [output].
  rewrite stored_metadata. now destruct (mx >? 2 ^ 32).
Qed.

(** C2. The dispatcher does not let the unknown-architecture failure of
    the Darwin variant through: it is a [RuntimeError] like the
    format-not-recognized one, so [ConvertProfile] catches it and, the
    Darwin variant being the last one tried, raises its own
    no-suitable-converter failure. *)
Theorem ConvertProfile_swallows_unknown_architecture
    (a : Archive) (out : Output vtypes) (pc : option string)
    (e1 : exception) (self1 : Converter vtypes) (text : string)
    (pre post : list string) (line last_part : string) :
  let self := init (InArchive a) (output self1) None in
  LinuxConverter.Convert (init (InArchive a) out None) = (Raise e1, self1) ->
  is_RuntimeError e1 = true ->
  ProfileConverter.SelectFile OSXConverter.re_dsymutil self = (Ok (Some text), self) ->
  Py.splitlines text = pre ++ line :: post ->
  Forall (fun l => Py.contains "Symbol table for" l = false) pre ->
  Py.contains "Symbol table for" line = true ->
  last (Py.split line) = Some last_part ->
  last_part <> "(x86_64)" -> last_part <> "(i386)" ->
  OSXConverter.Convert self
  = (Raise (RuntimeError ("Unknown Darwin Architecture " ++ last_part)%string), self)
  /\ ConvertProfile a out pc
     = (Raise (RuntimeError "No suitable converter found - profile not recognized."),
        output self1).
Proof.
  intros self Hlinux He1 Hsel Hlines Hpre Hline Hlast H64 H32.
  destruct (OSXConverter_Convert_unknown_architecture
              a (output self1) text pre post line last_part
              Hsel Hlines Hpre Hline Hlast H64 H32) as [_ Hosx].
  split; [exact Hosx|].
  unfold ConvertProfile. cbn [ConvertProfile_loop Convert].
  rewrite Hlinux, He1. unfold self in Hosx. now rewrite Hosx.
Qed.

(** ** The class that a completed conversion writes *)

Lemma LinuxConverter_WriteProfile_Ok (base : string) (system_map : gmap string Z)
    (vt : vtypes) (i : input_handle) (o : Output vtypes) (pc : option string)
    (self' : Converter vtypes) :
  LinuxConverter.WriteProfile base system_map vt (mkConverter i o pc) = (Ok tt, self') ->
  exists c,
    output self' !! "metadata" = Some (MetadataData (Some c) "Constants.json" "vtypes.json")
    /\ output self' !! "Constants.json" = Some (ConstantsData system_map)
    /\ match pc with
       | Some c0 => c = c0
       | None => c = (base ++ "64")%string \/ c = (base ++ "32")%string
       end.
Proof.
  destruct pc as [c0|].
  - rewrite LinuxConverter_WriteProfile_Some. intros [= <-]. exists c0.
    cbn [output]. now rewrite stored_metadata, stored_Constants.
  - rewrite LinuxConverter_WriteProfile_None.
    destruct (py_max (values system_map)) as [mx|e]; [|discriminate].
    cbn zeta. intros [= <-]. eexists. cbn [output].
    rewrite stored_metadata, stored_Constants. split; [reflexivity|]. split; [reflexivity|].
    destruct (mx >? 2 ^ 32); [now left|now right].
Qed.

Lemma LinuxConverter_Convert_Ok (a : Archive) (out : Output vtypes)
    (pc : option string) (self' : Converter vtypes) :
  LinuxConverter.Convert (mkConverter (InArchive a) out pc) = (Ok tt, self') ->
  exists c,
    output self' !! "metadata" = Some (MetadataData (Some c) "Constants.json" "vtypes.json")
    /\ match pc with
       | Some c0 => c = c0
       | None => c = "Linux64" \/ c = "Linux32"
       end.
Proof.
  destruct (LinuxConverter_Convert_split a out) as (r & out1 & Hsplit).
  rewrite Hsplit. destruct r as [[m vt]|e]; [|discriminate].
  intros Hw. apply LinuxConverter_WriteProfile_Ok in Hw as (c & Hc & _ & Hpc). eauto.
Qed.

(** Starting with no class, the Darwin parse sets Darwin64 or Darwin32,
    or nothing. *)
Lemma OSXConverter_ParseSystemMap_loop_class (lines : list string) :
  forall sys_map i (o : Output vtypes) r self1,
  OSXConverter.ParseSystemMap_loop sys_map lines (mkConverter i o None) = (r, self1) ->
  profile_class self1 = None
  \/ profile_class self1 = Some "Darwin64"
  \/ profile_class self1 = Some "Darwin32".
Proof.
  induction lines as [|line lines IH]; intros sys_map i o r self1.
  - intros [= <- <-]. now left.
  - cbn [OSXConverter.ParseSystemMap_loop].
    unfold bind at 1, get_profile_class. cbn [profile_class].
    rewrite bool_decide_eq_true_2 by reflexivity.
    destruct (Py.contains "Symbol table for" line); cbn [andb].
    + unfold bind, OSXConverter.detect_architecture.
      destruct (last (Py.split line)) as [t|];
        [|unfold raise; intros [= <- <-]; now left].
      destruct (String.eqb t "(x86_64)").
      { unfold set_profile_class. cbn [input output profile_class].
        rewrite OSXConverter_ParseSystemMap_loop_known. intros [= <- <-].
        right. now left. }
      destruct (String.eqb t "(i386)").
      { unfold set_profile_class. cbn [input output profile_class].
        rewrite OSXConverter_ParseSystemMap_loop_known. intros [= <- <-].
        right. now right. }
      unfold raise. intros [= <- <-]. now left.
    + unfold bind, ret. apply IH.
Qed.

Lemma OSXConverter_Convert_Ok (a : Archive) (out : Output vtypes)
    (pc : option string) (self' : Converter vtypes) :
  OSXConverter.Convert (mkConverter (InArchive a) out pc) = (Ok tt, self') ->
  exists c,
    output self' !! "metadata" = Some (MetadataData (Some c) "Constants.json" "vtypes.json")
    /\ match pc with
       | Some c0 => c = c0
       | None => c = "Darwin64" \/ c = "Darwin32"
       end.
Proof.
  destruct (OSXConverter_Convert_split a) as [r Hsplit]. rewrite Hsplit.
  destruct (ProfileConverter.SelectFile_loop a OSXConverter.re_dsymutil (ListFiles a))
    as [[[|c0 s0]|]|e]; try discriminate.
  unfold OSXConverter.ParseSystemMap.
  destruct pc as [c1|].
  - rewrite OSXConverter_ParseSystemMap_loop_known.
    destruct r as [vt|e]; [|discriminate].
    intros Hw. apply LinuxConverter_WriteProfile_Ok in Hw as (c & Hc & _ & Hpc). eauto.
  - destruct (OSXConverter_ParseSystemMap_loop_frame
                (Py.splitlines (String c0 s0)) ∅ (InArchive a) out None)
      as (r0 & pc' & Hparse).
    pose proof (OSXConverter_ParseSystemMap_loop_class _ _ _ _ _ _ Hparse) as Hclass.
    rewrite Hparse. cbn [profile_class] in Hclass.
    destruct r0 as [m|e]; [|discriminate].
    destruct r as [vt|e]; [|discriminate].
    intros Hw. apply LinuxConverter_WriteProfile_Ok in Hw as (c & Hc & _ & Hpc).
    exists c. split; [exact Hc|].
    destruct Hclass as [->|[->| ->]]; subst; auto.
Qed.

Lemma WindowsConverter_Convert_Ok (self self' : Converter vtypes) :
  WindowsConverter.Convert self = (Ok tt, self') ->
  exists c,
    profile_class self = Some c /\ c <> EmptyString
    /\ output self' !! "metadata"
       = Some (MetadataData (Some c) "Constants.json" "vtypes.json").
Proof.
  destruct self as [i o pc].
  unfold WindowsConverter.Convert. run_monad. unfold get_profile_class.
  cbn [profile_class input].
  destruct pc as [[|c0 s0]|]; try discriminate.
  cbn [input]. destruct i as [a|path]; [discriminate|].
  destruct (open_rb path) as [code|e]; [|discriminate].
  destruct (exec code) as [l|e]; [|discriminate].
  destruct (LinuxConverter.getitem l "ntkrnlmp_types") as [vt|e]; [|discriminate].
  rewrite ProfileConverter_WriteProfile_eq. intros [= <-].
  exists (String c0 s0). cbn [output profile_class].
  split; [reflexivity|]. split; [discriminate|]. apply stored_metadata.
Qed.

(** C5. The shared writer never fails and never checks the class: called
    on a converter whose class is unset, it stores a metadata entry whose
    ProfileClass is absent.  It is the callers that resolve the class
    first: every conversion of a variant that completes has written a
    metadata entry with a class, because the Linux and Darwin writers
    infer one before they delegate, and the Windows conversion raises
    when none was given. *)
Theorem WriteProfile_class_resolved_by_callers :
  (forall system_map (vt : vtypes) i o pc,
      ProfileConverter.WriteProfile system_map vt (mkConverter i o pc)
      = (Ok tt, mkConverter i (stored system_map vt pc o) pc)
      /\ stored system_map vt pc o !! "metadata"
         = Some (MetadataData pc "Constants.json" "vtypes.json"))
  /\ (forall cls (self self' : Converter vtypes),
      Convert cls self = (Ok tt, self') ->
      exists c,
        output self' !! "metadata"
        = Some (MetadataData (Some c) "Constants.json" "vtypes.json")).
Proof.
  split.
  - intros system_map vt i o pc. split; [reflexivity|apply stored_metadata].
  - intros cls [i o pc] self' Hconv.
    destruct cls; cbn [Convert] in Hconv.
    + destruct i as [a|path]; [|discriminate].
      apply LinuxConverter_Convert_Ok in Hconv as (c & Hc & _). eauto.
    + destruct i as [a|path]; [|discriminate].
      apply OSXConverter_Convert_Ok in Hconv as (c & Hc & _). eauto.
    + apply WindowsConverter_Convert_Ok in Hconv as (c & _ & _ & Hc). eauto.
Qed.

(** ** Inference of the Linux class *)

(** A Linux conversion that completes with an explicit class tells what
    the same conversion does without one: the steps before the writer
    are the same, and the writer then takes the largest address. *)
Lemma LinuxConverter_Convert_without_class (a : Archive) (out : Output vtypes)
    (c : string) (s1 : Converter vtypes) (system_map : gmap string Z) :
  LinuxConverter.Convert (init (InArchive a) out (Some c)) = (Ok tt, s1) ->
  output s1 !! "Constants.json" = Some (ConstantsData system_map) ->
  exists vt out1,
    LinuxConverter.Convert (init (InArchive a) out None)
    = LinuxConverter.WriteProfile "Linux" system_map vt (mkConverter (InArchive a) out1 None).
Proof.
  intros Hexplicit Hconst.
  destruct (LinuxConverter_Convert_split a out) as (r & out1 & Hsplit).
  unfold init in *. rewrite Hsplit in Hexplicit. rewrite Hsplit.
  destruct r as [[m vt]|e]; [|discriminate].
  rewrite LinuxConverter_WriteProfile_Some in Hexplicit.
  injection Hexplicit as <-. cbn [output] in Hconst.
  rewrite stored_Constants in Hconst. injection Hconst as ->. eauto.
Qed.

(** C3. On a Linux archive that converts when given a class, whose
    parsed symbol table has the largest address [largest_offset], the
    conversion with no explicit class writes Linux64 exactly when
    [largest_offset] is greater than 2^32, and Linux32 otherwise: at
    the address 2^32 itself, which needs 33 bits, the code writes
    Linux32, and not Linux64 as specified. *)
Theorem LinuxConverter_inference_threshold
    (a : Archive) (out : Output vtypes) (c : string) (s1 : Converter vtypes)
    (system_map : gmap string Z) (largest_offset : Z) :
  LinuxConverter.Convert (init (InArchive a) out (Some c)) = (Ok tt, s1) ->
  output s1 !! "Constants.json" = Some (ConstantsData system_map) ->
  largest_of system_map largest_offset ->
  exists self',
    LinuxConverter.Convert (init (InArchive a) out None) = (Ok tt, self')
    /\ output self' !! "metadata"
       = Some (MetadataData
                 (Some (if largest_offset >? 2 ^ 32 then "Linux64" else "Linux32"))
                 "Constants.json" "vtypes.json")
    /\ (largest_offset = 2 ^ 32 ->
        output self' !! "metadata"
        = Some (MetadataData (Some "Linux32") "Constants.json" "vtypes.json")).
Proof.
  intros Hexplicit Hconst Hmx. apply py_max_values in Hmx.
  destruct (LinuxConverter_Convert_without_class a out c s1 system_map Hexplicit Hconst)
    as (vt & out1 & ->).
  rewrite LinuxConverter_WriteProfile_None, Hmx. cbn zeta.
  eexists. split; [reflexivity|]. cbn [output]. rewrite stored_metadata.
  split.
  - now destruct (largest_offset >? 2 ^ 32).
  - intros ->. reflexivity.
Qed.

(** C6. On a Linux archive that converts when given a class (the
    System.map marker matched and a type table was read), the conversion
    with no explicit class raises when the parsed symbol table is empty:
    it is the [ValueError] of [max] on an empty sequence, which the
    dispatcher does not catch, so that no other variant is tried.  A
    table that is not empty and holds only zero addresses raises
    nothing: its largest address is 0 and the class written is
    Linux32. *)
Theorem LinuxConverter_empty_or_zero_table
    (a : Archive) (out : Output vtypes) (c : string) (s1 : Converter vtypes)
    (system_map : gmap string Z) :
  LinuxConverter.Convert (init (InArchive a) out (Some c)) = (Ok tt, s1) ->
  output s1 !! "Constants.json" = Some (ConstantsData system_map) ->
  (system_map = ∅ ->
     exists out',
       ConvertProfile a out None
       = (Raise (ValueError "max() arg is an empty sequence"), out'))
  /\ (system_map <> ∅ -> (forall k v, system_map !! k = Some v -> v = 0) ->
     exists out',
       ConvertProfile a out None = (Ok tt, out')
       /\ out' !! "metadata"
          = Some (MetadataData (Some "Linux32") "Constants.json" "vtypes.json")).
Proof.
  intros Hexplicit Hconst.
  destruct (LinuxConverter_Convert_without_class a out c s1 system_map Hexplicit Hconst)
    as (vt & out1 & Hnone).
  unfold ConvertProfile. cbn [ConvertProfile_loop Convert]. rewrite Hnone.
  rewrite LinuxConverter_WriteProfile_None.
  split.
  - intros ->. rewrite py_max_empty. cbn [is_RuntimeError output]. eauto.
  - intros Hne Hzero.
    destruct (py_max_nonempty system_map Hne) as [mx Hmx]. rewrite Hmx.
    apply py_max_values in Hmx as [[k Hk] _].
    rewrite (Hzero k mx Hk). cbn zeta.
    eexists. split; [reflexivity|]. cbn [output]. apply stored_metadata.
Qed.

(** ** The dispatcher *)

Lemma ConvertProfile_Ok (a : Archive) (out out' : Output vtypes) (pc : option string) :
  ConvertProfile a out pc = (Ok tt, out') ->
  exists c,
    out' !! "metadata" = Some (MetadataData (Some c) "Constants.json" "vtypes.json")
    /\ c ∈ ["Linux64"; "Linux32"; "Darwin64"; "Darwin32"].
Proof.
  unfold ConvertProfile. cbn [ConvertProfile_loop Convert]. unfold init.
  destruct (LinuxConverter.Convert (mkConverter (InArchive a) out None))
    as [[[]|e1] self1] eqn:Hlinux.
  - intros [= <-]. apply LinuxConverter_Convert_Ok in Hlinux as (c & Hc & [->| ->]).
    + exists "Linux64". split; [exact Hc|]. set_solver.
    + exists "Linux32". split; [exact Hc|]. set_solver.
  - destruct (is_RuntimeError e1); [|discriminate].
    destruct (OSXConverter.Convert (mkConverter (InArchive a) (output self1) None))
      as [[[]|e2] self2] eqn:Hosx.
    + intros [= <-]. apply OSXConverter_Convert_Ok in Hosx as (c & Hc & [->| ->]).
      * exists "Darwin64". split; [exact Hc|]. set_solver.
      * exists "Darwin32". split; [exact Hc|]. set_solver.
    + destruct (is_RuntimeError e2); discriminate.
Qed.

(** C4. On the automatic path the profile-class override has no effect.
    [ConvertProfile] never passes its [profile_class] argument to the
    converters it builds, and [main] never passes the [--profile_class]
    flag to [ConvertProfile]: the result is the same with and without
    it, and the class written is always one of the four inferred
    names. *)
Theorem ConvertProfile_ignores_profile_class :
  (forall (a : Archive) (out : Output vtypes) pc,
      ConvertProfile a out pc = ConvertProfile a out None)
  /\ (forall flags pc,
      truthy (flag_converter flags) = false ->
      main flags
      = main (mkFlags pc (flag_converter flags) (flag_source flags)
                (flag_destination flags)))
  /\ (forall (a : Archive) (out out' : Output vtypes) pc,
      ConvertProfile a out pc = (Ok tt, out') ->
      exists c,
        out' !! "metadata" = Some (MetadataData (Some c) "Constants.json" "vtypes.json")
        /\ c ∈ ["Linux64"; "Linux32"; "Darwin64"; "Darwin32"]).
Proof.
  split; [reflexivity|]. split.
  - intros [pc0 conv src dst] pc Hconv. unfold main.
    cbn [flag_converter flag_source flag_destination flag_profile_class] in *.
    now rewrite Hconv.
  - intros a out out' pc. apply ConvertProfile_Ok.
Qed.

(** ** The kernel-module path *)

(** C8. When a Linux conversion takes the kernel-module path (the
    System.map entry is selected and parsed, an entry matching [\.ko$] is
    selected and the module parser is built on it), the output archive
    holds under the name module.ko the very bytes that [SelectFile]
    returned for the module, whatever the rest of the conversion does. *)
Theorem LinuxConverter_Convert_keeps_module
    (a : Archive) (out : Output vtypes) (pc : option string)
    (text ko_file : string) (system_map : gmap string Z) (parser : ko_parser) :
  let self := init (InArchive a) out pc in
  ProfileConverter.SelectFile LinuxConverter.re_System_map self = (Ok (Some text), self) ->
  text <> EmptyString ->
  LinuxConverter.ParseSystemMap text self = (Ok system_map, self) ->
  ProfileConverter.SelectFile LinuxConverter.re_ko self = (Ok (Some ko_file), self) ->
  ko_file <> EmptyString ->
  ko_DWARFParser ko_file = Ok parser ->
  output (LinuxConverter.Convert self).2 !! "module.ko" = Some (RawData ko_file).
Proof.
  intros self Hmap Hne Hparse Hko Hkne Hparser. unfold self, init in *.
  unfold LinuxConverter.Convert.
  unfold ProfileConverter.SelectFile, LinuxConverter.ParseSystemMap,
    bind, get_input, lift in *.
  cbn [input] in *.
  injection Hmap as Hmap. injection Hparse as Hparse. injection Hko as Hko.
  rewrite Hmap.
  destruct text as [|c0 s0]; [contradiction|]. rewrite Hparse.
  cbn [input]. rewrite Hko.
  destruct ko_file as [|c1 s1]; [contradiction|]. rewrite Hparser.
  unfold update_output. cbn [input output profile_class].
  destruct (ko_VType parser) as [vt|e]; cbn [snd output].
  - destruct pc as [c|].
    + rewrite LinuxConverter_WriteProfile_Some. cbn [snd output].
      rewrite stored_other by discriminate.
      unfold Create_write, Output. apply lookup_insert_eq.
    + rewrite LinuxConverter_WriteProfile_None.
      destruct (py_max (values system_map)) as [mx|e]; cbn [snd output].
      * rewrite stored_other by discriminate.
        unfold Create_write, Output. apply lookup_insert_eq.
      * unfold Create_write, Output. apply lookup_insert_eq.
  - unfold Create_write, Output. apply lookup_insert_eq.
Qed.

End Properties.


(** * The properties on the sample archives *)

Import Runs.
#[local] Existing Instance C.

(** C9 on the module archive: the first name matching [\.ko$] without
    regard to case is lib/Module.KO, and no name matches [\.dwarf$]. *)
Lemma SelectFile_first_match_witness :
  let self := init (InArchive module_archive) empty_output None in
  ProfileConverter.SelectFile LinuxConverter.re_ko self = (Ok (Some "ELF-1"), self)
  /\ ProfileConverter.SelectFile LinuxConverter.re_dwarf self = (Ok None, self).
Proof.
  intros self. split.
  - apply (proj1 (SelectFile_first_match LinuxConverter.re_ko module_archive
                    empty_output None)
             [("System.map", "c0100000 T _text"); ("README", "text")]
             "lib/Module.KO" "ELF-1" [("extra.ko", "ELF-2")]).
    + reflexivity.
    + repeat constructor.
    + vm_compute. discriminate.
  - apply (proj2 (SelectFile_first_match LinuxConverter.re_dwarf module_archive
                    empty_output None)).
    repeat constructor.
Defined.

(** C1 on the map with a line of two fields. *)
Lemma LinuxConverter_ParseSystemMap_malformed_line_witness :
  exists msg,
    (forall self : Converter string,
        LinuxConverter.ParseSystemMap short_line_map self = (Raise (ValueError msg), self))
    /\ (forall (a : Archive) (out : Output string) pc,
        ProfileConverter.SelectFile LinuxConverter.re_System_map
          (init (InArchive a) out None)
        = (Ok (Some short_line_map), init (InArchive a) out None) ->
        ConvertProfile a out pc = (Raise (ValueError msg), out)).
Proof.
  apply (LinuxConverter_ParseSystemMap_malformed_line_raises short_line_map).
  assert (E : Py.splitlines short_line_map = ["c0100000 T _text"; "c0100004 T"])
    by (vm_compute; reflexivity).
  rewrite E. apply Exists_cons_tl, Exists_cons_hd. vm_compute. discriminate.
Defined.

(** The dispatcher on that archive: the conversion is not completed. *)
Example ConvertProfile_short_line :
  ConvertProfile short_line_archive empty_output None
  = (Raise (ValueError "need more than 2 values to unpack"), empty_output).
Proof. vm_compute. reflexivity. Qed.

(** C2, the claim as stated: on the archive with the [(ppc)] header the
    Darwin variant raises the unknown-architecture failure, and the
    dispatcher raises another failure in its place. *)
Lemma ConvertProfile_unknown_architecture_counterexample :
  let a := darwin_archive [header_ppc] in
  (OSXConverter.Convert (init (InArchive a) empty_output None)).1
  = Raise (RuntimeError "Unknown Darwin Architecture (ppc)")
  /\ (ConvertProfile a empty_output None).1
     = Raise (RuntimeError "No suitable converter found - profile not recognized.")
  /\ (ConvertProfile a empty_output None).1
     <> Raise (RuntimeError "Unknown Darwin Architecture (ppc)").
Proof.
  intros a. split; [|split].
  - vm_compute. reflexivity.
  - vm_compute. reflexivity.
  - vm_compute. discriminate.
Qed.

(** C2 as amended, on the same archive. *)
Lemma ConvertProfile_swallows_unknown_architecture_witness :
  let a := darwin_archive [header_ppc] in
  let self := init (InArchive a) empty_output None in
  OSXConverter.Convert self
  = (Raise (RuntimeError "Unknown Darwin Architecture (ppc)"), self)
  /\ ConvertProfile a empty_output (Some "Darwin64")
     = (Raise (RuntimeError "No suitable converter found - profile not recognized."),
        empty_output).
Proof.
  intros a self.
  apply (ConvertProfile_swallows_unknown_architecture a empty_output (Some "Darwin64")
           (RuntimeError "Unknown profile format.") self
           (dsymutil_text [header_ppc]) []
           ["[  12] 0001 24 (N_FUN ) 01 0000 ffffff8000200000 '_start'";
            "[  13] 0002 20 (N_GSYM ) 00 0000 0000000000000000 '_version'"]
           header_ppc "(ppc)").
  - vm_compute. reflexivity.
  - reflexivity.
  - vm_compute. reflexivity.
  - vm_compute. reflexivity.
  - constructor.
  - vm_compute. reflexivity.
  - vm_compute. reflexivity.
  - discriminate.
  - discriminate.
Defined.

(** C7 on the three headers. *)
Lemma OSXConverter_ParseSystemMap_architecture_witness :
  (exists system_map,
      OSXConverter.ParseSystemMap (dsymutil_text [header_x86_64])
        (init (InArchive (darwin_archive [header_x86_64])) empty_output None)
      = (Ok system_map,
         init (InArchive (darwin_archive [header_x86_64])) empty_output (Some "Darwin64")))
  /\ (exists system_map,
      OSXConverter.ParseSystemMap (dsymutil_text [header_i386])
        (init (InArchive (darwin_archive [header_i386])) empty_output None)
      = (Ok system_map,
         init (InArchive (darwin_archive [header_i386])) empty_output (Some "Darwin32")))
  /\ OSXConverter.Convert (init (InArchive (darwin_archive [header_ppc])) empty_output None)
     = (Raise (RuntimeError "Unknown Darwin Architecture (ppc)"),
        init (InArchive (darwin_archive [header_ppc])) empty_output None).
Proof.
  pose (body := ["[  12] 0001 24 (N_FUN ) 01 0000 ffffff8000200000 '_start'";
                 "[  13] 0002 20 (N_GSYM ) 00 0000 0000000000000000 '_version'"]).
  split; [|split].
  - destruct (OSXConverter_ParseSystemMap_architecture
                (darwin_archive [header_x86_64]) empty_output
                (dsymutil_text [header_x86_64]) [] body header_x86_64 "(x86_64)")
      as (P64 & _ & _);
      [vm_compute; reflexivity | vm_compute; reflexivity | constructor
      | vm_compute; reflexivity | vm_compute; reflexivity |].
    exact (proj1 (P64 eq_refl)).
  - destruct (OSXConverter_ParseSystemMap_architecture
                (darwin_archive [header_i386]) empty_output
                (dsymutil_text [header_i386]) [] body header_i386 "(i386)")
      as (_ & P32 & _);
      [vm_compute; reflexivity | vm_compute; reflexivity | constructor
      | vm_compute; reflexivity | vm_compute; reflexivity |].
    exact (proj1 (P32 eq_refl)).
  - destruct (OSXConverter_ParseSystemMap_architecture
                (darwin_archive [header_ppc]) empty_output
                (dsymutil_text [header_ppc]) [] body header_ppc "(ppc)")
      as (_ & _ & Pother);
      [vm_compute; reflexivity | vm_compute; reflexivity | constructor
      | vm_compute; reflexivity | vm_compute; reflexivity |].
    apply Pother; discriminate.
Defined.

(** The Darwin conversion that completes writes the class of the header. *)
Example OSXConverter_Convert_x86_64 :
  output (OSXConverter.Convert
            (init (InArchive (darwin_archive [header_x86_64])) empty_output None)).2
    !! "metadata"
  = Some (MetadataData (Some "Darwin64") "Constants.json" "vtypes.json").
Proof. vm_compute. reflexivity. Qed.

(** C3 on the archive whose largest address is 2^32: the class written
    is Linux32. *)
Lemma LinuxConverter_inference_threshold_witness :
  largest_of top_2_32_table (2 ^ 32)
  /\ exists self',
      LinuxConverter.Convert (init (InArchive top_2_32_archive) empty_output None)
      = (Ok tt, self')
      /\ output self' !! "metadata"
         = Some (MetadataData (Some "Linux32") "Constants.json" "vtypes.json").
Proof.
  assert (Hmx : largest_of top_2_32_table (2 ^ 32)).
  { apply py_max_values. vm_compute. reflexivity. }
  split; [exact Hmx|].
  destruct (LinuxConverter_inference_threshold top_2_32_archive empty_output "Linux64"
              (LinuxConverter.Convert
                 (init (InArchive top_2_32_archive) empty_output (Some "Linux64"))).2
              top_2_32_table (2 ^ 32))
    as (self' & Hconv & _ & H32);
    [vm_compute; reflexivity | vm_compute; reflexivity | exact Hmx |].
  exists self'. split; [exact Hconv|]. now apply H32.
Defined.

(** One address more and the class is Linux64; small addresses give
    Linux32. *)
Example LinuxConverter_Convert_above_2_32 :
  let a := [("System.map", "100000001 D top"); ("vtypes.json", "{}")] in
  output (LinuxConverter.Convert (init (InArchive a) empty_output None)).2 !! "metadata"
  = Some (MetadataData (Some "Linux64") "Constants.json" "vtypes.json").
Proof. vm_compute. reflexivity. Qed.

Example LinuxConverter_Convert_small :
  output (LinuxConverter.Convert (init (InArchive small_archive) empty_output None)).2
    !! "metadata"
  = Some (MetadataData (Some "Linux32") "Constants.json" "vtypes.json").
Proof. vm_compute. reflexivity. Qed.

(** C4 on the archive with small addresses: the override Linux64 is
    given, the conversion completes, and the class written is the
    inferred Linux32. *)
Lemma ConvertProfile_ignores_profile_class_witness :
  let r := ConvertProfile small_archive empty_output (Some "Linux64") in
  r.1 = Ok tt
  /\ r.2 !! "metadata" = Some (MetadataData (Some "Linux32") "Constants.json" "vtypes.json")
  /\ r = ConvertProfile small_archive empty_output None
  /\ (exists c,
        r.2 !! "metadata" = Some (MetadataData (Some c) "Constants.json" "vtypes.json")
        /\ c ∈ ["Linux64"; "Linux32"; "Darwin64"; "Darwin32"])
  /\ main (mkFlags (Some "Linux64") None "in.zip" "out.zip")
     = main (mkFlags None None "in.zip" "out.zip").
Proof.
  intros r.
  destruct (@ConvertProfile_ignores_profile_class string C) as (Hsame & Hmain & Hclass).
  split; [vm_compute; reflexivity|].
  split; [vm_compute; reflexivity|].
  split; [apply Hsame|].
  split.
  - apply (Hclass small_archive empty_output r.2 (Some "Linux64")).
    vm_compute. reflexivity.
  - apply (Hmain (mkFlags (Some "Linux64") None "in.zip" "out.zip") None). reflexivity.
Defined.

(** C5, the claim as stated: the shared writer on a converter with no
    class returns normally and stores a metadata entry with no class. *)
Lemma ProfileConverter_WriteProfile_unresolved_counterexample :
  let r := ProfileConverter.WriteProfile (vtypes := string) ∅ "{}"
             (init (InPath "ntkrnlmp.py") empty_output None) in
  r.1 = Ok tt
  /\ output r.2 !! "metadata" = Some (MetadataData None "Constants.json" "vtypes.json").
Proof. intros r. split; vm_compute; reflexivity. Qed.

(** C5 as amended, on a Linux conversion with no explicit class. *)
Lemma WriteProfile_class_resolved_by_callers_witness :
  let self := init (InArchive small_archive) empty_output None in
  (Convert LinuxConverter_cls self).1 = Ok tt
  /\ exists c,
      output (Convert LinuxConverter_cls self).2 !! "metadata"
      = Some (MetadataData (Some c) "Constants.json" "vtypes.json").
Proof.
  intros self. split; [vm_compute; reflexivity|].
  apply (proj2 (@WriteProfile_class_resolved_by_callers string C)
           LinuxConverter_cls self (Convert LinuxConverter_cls self).2).
  vm_compute. reflexivity.
Defined.

(** The Windows conversion with no class raises before it writes. *)
Example WindowsConverter_Convert_no_class :
  WindowsConverter.Convert (init (InPath "ntkrnlmp.py") empty_output None)
  = (Raise (RuntimeError "Profile class implementation not provided."),
     init (InPath "ntkrnlmp.py") empty_output None).
Proof. reflexivity. Qed.

(** C6, the claim as stated: with the only address zero, the conversion
    completes and writes Linux32. *)
Lemma ConvertProfile_zero_table_counterexample :
  let r := ConvertProfile zero_archive empty_output None in
  r.1 = Ok tt
  /\ r.2 !! "metadata" = Some (MetadataData (Some "Linux32") "Constants.json" "vtypes.json")
  /\ ~ (exists e, r.1 = Raise e).
Proof.
  intros r. split; [vm_compute; reflexivity|].
  split; [vm_compute; reflexivity|].
  intros [e He]. vm_compute in He. discriminate.
Qed.

(** C6 as amended: the table with no address raises in the dispatcher,
    the table with the address zero gives Linux32. *)
Lemma LinuxConverter_empty_or_zero_table_witness :
  (exists out',
      ConvertProfile no_address_archive empty_output None
      = (Raise (ValueError "max() arg is an empty sequence"), out'))
  /\ (exists out',
      ConvertProfile zero_archive empty_output None = (Ok tt, out')
      /\ out' !! "metadata"
         = Some (MetadataData (Some "Linux32") "Constants.json" "vtypes.json")).
Proof.
  split.
  - destruct (LinuxConverter_empty_or_zero_table no_address_archive empty_output
                "Linux64"
                (LinuxConverter.Convert
                   (init (InArchive no_address_archive) empty_output (Some "Linux64"))).2
                ∅) as [Hempty _];
      [vm_compute; reflexivity | vm_compute; reflexivity |].
    now apply Hempty.
  - destruct (LinuxConverter_empty_or_zero_table zero_archive empty_output
                "Linux64"
                (LinuxConverter.Convert
                   (init (InArchive zero_archive) empty_output (Some "Linux64"))).2
                zero_table) as [_ Hzero];
      [vm_compute; reflexivity | vm_compute; reflexivity |].
    apply Hzero.
    + intros E. apply (f_equal (fun m : gmap string Z => m !! "start")) in E.
      vm_compute in E. discriminate.
    + intros k v Hk. unfold zero_table in Hk.
      apply lookup_insert_Some in Hk as [[_ <-]|[_ Hk]]; [reflexivity|].
      rewrite lookup_empty in Hk. discriminate.
Defined.

(** C8 on the archive with two modules: module.ko holds the bytes of the
    first one. *)
Lemma LinuxConverter_Convert_keeps_module_witness :
  output (LinuxConverter.Convert
            (init (InArchive module_archive) empty_output None)).2 !! "module.ko"
  = Some (RawData "ELF-1").
Proof.
  apply (@LinuxConverter_Convert_keeps_module string C module_archive empty_output None
           "c0100000 T _text" "ELF-1" (<["_text" := 3222274048]> ∅)
           ("ELF-1" : @ko_parser string C)).
  - vm_compute. reflexivity.
  - discriminate.
  - vm_compute. reflexivity.
  - vm_compute. reflexivity.
  - discriminate.
  - reflexivity.
Defined.

(** C10 on the Darwin archive with no header: the largest address is
    above 2^32 and the class written is Darwin64. *)
Lemma OSXConverter_fallback_inference_witness :
  let self := init (InArchive (darwin_archive [])) empty_output None in
  exists system_map,
    OSXConverter.ParseSystemMap (dsymutil_text []) self = (Ok system_map, self)
    /\ forall largest_offset, largest_of system_map largest_offset ->
       exists self',
         OSXConverter.Convert self = (Ok tt, self')
         /\ output self' !! "metadata"
            = Some (MetadataData
                      (Some (if largest_offset >? 2 ^ 32 then "Darwin64" else "Darwin32"))
                      "Constants.json" "vtypes.json").
Proof.
  apply (OSXConverter_fallback_inference (darwin_archive []) empty_output "Darwin32"
           (dsymutil_text [])
           (OSXConverter.Convert
              (init (InArchive (darwin_archive [])) empty_output (Some "Darwin32"))).2).
  - vm_compute. reflexivity.
  - vm_compute. reflexivity.
  - vm_compute. repeat constructor.
Defined.

Example OSXConverter_Convert_no_header :
  output (OSXConverter.Convert
            (init (InArchive (darwin_archive [])) empty_output None)).2 !! "metadata"
  = Some (MetadataData (Some "Darwin64") "Constants.json" "vtypes.json").
Proof. vm_compute. reflexivity. Qed.

(** * Further properties of the converters *)

Section Further.
Context {vtypes : Type} `{Collaborators vtypes}.

(** ** The Linux symbol table *)

Lemma unrecorded_cons (line : string) (lines : list string) (symbol : string) :
  unrecorded (line :: lines) symbol
  <-> (forall a t, fields line = [a; t; symbol] -> Py.long16 a = None)
      /\ unrecorded lines symbol.
Proof. unfold unrecorded. apply Forall_cons. Qed.

Lemma recorded_cons (line : string) (lines : list string) (symbol : string) (v : Z) :
  recorded (line :: lines) symbol v
  <-> ((exists a t, fields line = [a; t; symbol] /\ Py.long16 a = Some v)
       /\ unrecorded lines symbol)
      \/ recorded lines symbol v.
Proof.
  unfold recorded. split.
  - intros (pre & l & post & a & t & Hl & Hf & Ha & Hun).
    destruct pre as [|p pre]; simpl in Hl; injection Hl as -> ->.
    + left. eauto.
    + right. exists pre, l, post, a, t. eauto.
  - intros [[(a & t & Hf & Ha) Hun]|(pre & l & post & a & t & -> & Hf & Ha & Hun)].
    + exists [], line, lines, a, t. eauto.
    + exists (line :: pre), l, post, a, t. eauto.
Qed.

(** The loop on lines of three fields: it ends normally, and a symbol
    gets the address of the last line that records one for it, or keeps
    the one it had. *)
Lemma LinuxConverter_ParseSystemMap_loop_lookup (lines : list string) :
  forall sys_map,
  Forall (fun line => length (fields line) = 3%nat) lines ->
  exists m,
    LinuxConverter.ParseSystemMap_loop sys_map lines = Ok m
    /\ forall symbol v,
        m !! symbol = Some v
        <-> recorded lines symbol v
            \/ (sys_map !! symbol = Some v /\ unrecorded lines symbol).
Proof.
  induction lines as [|line lines IH]; intros sys_map Hthree.
  - exists sys_map. split; [reflexivity|]. intros symbol v. split.
    + intros Hv. right. split; [exact Hv|constructor].
    + intros [(pre & l & post & a & t & Hl & _)|[Hv _]]; [|exact Hv].
      destruct pre; discriminate.
  - inversion Hthree as [|? ? Hline Hrest]; subst.
    unfold fields in Hline.
    destruct (Py.split (Py.strip line)) as [|a [|t [|s [|x fs]]]] eqn:E;
      try discriminate.
    cbn [LinuxConverter.ParseSystemMap_loop]. rewrite E.
    destruct (Py.long16 a) as [v0|] eqn:Ea.
    + destruct (IH (<[s := v0]> sys_map) Hrest) as (m & Hm & Hlook).
      exists m. split; [exact Hm|]. intros symbol v.
      rewrite Hlook, recorded_cons, unrecorded_cons. unfold fields. rewrite E.
      destruct (decide (s = symbol)) as [->|Hne].
      * rewrite lookup_insert_eq. split.
        -- intros [Hrec|[[= <-] Hun]]; [left; now right|].
           left. left. split; [|exact Hun]. eauto.
        -- intros [[[(a' & t' & [= <- <-] & Ha') Hun]|Hrec]|[_ [Hnone _]]].
           ++ right. split; [congruence|exact Hun].
           ++ now left.
           ++ specialize (Hnone a t eq_refl). congruence.
      * rewrite lookup_insert_ne by exact Hne. split.
        -- intros [Hrec|[Hv Hun]]; [left; now right|].
           right. split; [exact Hv|]. split; [|exact Hun].
           intros a' t' [= _ _ Hs]. contradiction.
        -- intros [[[(a' & t' & [= _ _ Hs] & _) _]|Hrec]|[Hv [_ Hun]]].
           ++ contradiction.
           ++ now left.
           ++ right. now split.
    + destruct (IH sys_map Hrest) as (m & Hm & Hlook).
      exists m. split; [exact Hm|]. intros symbol v.
      rewrite Hlook, recorded_cons, unrecorded_cons. unfold fields. rewrite E.
      split.
      * intros [Hrec|[Hv Hun]]; [left; now right|].
        right. split; [exact Hv|]. split; [|exact Hun].
        intros a' t' [= <- _ _]. exact Ea.
      * intros [[[(a' & t' & [= <- _ _] & Ha') _]|Hrec]|[Hv [_ Hun]]].
        -- congruence.
        -- now left.
        -- right. now split.
Qed.

(** X1. When every line of the system map has three fields, the parse
    does not raise, and the table it returns maps a symbol to the address
    of the last line that names it with a hexadecimal address; lines
    whose address is not hexadecimal leave no trace. *)
Theorem LinuxConverter_ParseSystemMap_last_write_wins (system_map : string) :
  Forall (fun line => length (fields line) = 3%nat) (Py.splitlines system_map) ->
  exists m,
    (forall self : Converter vtypes,
        LinuxConverter.ParseSystemMap system_map self = (Ok m, self))
    /\ forall symbol v,
        m !! symbol = Some v <-> recorded (Py.splitlines system_map) symbol v.
Proof.
  intros Hthree.
  destruct (LinuxConverter_ParseSystemMap_loop_lookup _ ∅ Hthree) as (m & Hm & Hlook).
  exists m. split.
  - intros self. unfold LinuxConverter.ParseSystemMap, lift. now rewrite Hm.
  - intros symbol v. rewrite Hlook. split; [|now left].
    intros [Hrec|[Hv _]]; [exact Hrec|]. rewrite lookup_empty in Hv. discriminate.
Qed.

(** ** Splitting a line into fields *)

Lemma split_cons (c : ascii) (s : string) :
  Py.split (String c s)
  = if Py.isspace c then Py.split s
    else match s with
         | EmptyString => [String c EmptyString]
         | String c' _ =>
             if Py.isspace c' then String c EmptyString :: Py.split s
             else match Py.split s with
                  | [] => [String c EmptyString]
                  | w :: ws => String c w :: ws
                  end
         end.
Proof. destruct s; reflexivity. Qed.

Lemma split_lstrip (s : string) : Py.split (Py.lstrip s) = Py.split s.
Proof.
  induction s as [|c s IH]; [reflexivity|].
  cbn [Py.lstrip]. destruct (Py.isspace c) eqn:Ec; [|reflexivity].
  rewrite IH. cbn [Py.split]. now rewrite Ec.
Qed.

Lemma rstrip_empty (s : string) :
  Py.rstrip s = EmptyString -> Py.split s = [].
Proof.
  induction s as [|c s IH]; [reflexivity|].
  cbn [Py.rstrip]. destruct (Py.rstrip s) as [|r0 r]; [|discriminate].
  destruct (Py.isspace c) eqn:Ec; [|discriminate].
  intros _. cbn [Py.split]. rewrite Ec. now apply IH.
Qed.

Lemma rstrip_head (c : ascii) (s : string) :
  Py.rstrip (String c s) = EmptyString
  \/ exists r, Py.rstrip (String c s) = String c r.
Proof.
  cbn [Py.rstrip]. destruct (Py.rstrip s) as [|r0 r].
  - destruct (Py.isspace c); eauto.
  - eauto.
Qed.

Lemma split_nil_head (c : ascii) (s : string) :
  Py.split (String c s) = [] -> Py.isspace c = true.
Proof.
  cbn [Py.split]. destruct (Py.isspace c); [reflexivity|].
  destruct s as [|c' s]; [discriminate|].
  destruct (Py.isspace c'); [discriminate|].
  destruct (Py.split (String c' s)); discriminate.
Qed.

Lemma split_rstrip (s : string) : Py.split (Py.rstrip s) = Py.split s.
Proof.
  induction s as [|c s IH]; [reflexivity|].
  cbn [Py.rstrip].
  destruct (Py.rstrip s) as [|r0 r] eqn:Er.
  - pose proof (rstrip_empty s Er) as Hs.
    destruct (Py.isspace c) eqn:Ec.
    + cbn [Py.split]. now rewrite Ec.
    + cbn [Py.split]. rewrite Ec.
      destruct s as [|c' s]; [reflexivity|].
      rewrite (split_nil_head c' s Hs). now rewrite Hs.
  - destruct s as [|c' s]; [discriminate|].
    destruct (rstrip_head c' s) as [E|[r' E]]; rewrite E in Er; [discriminate|].
    injection Er as <- <-.
    change (Py.split (String c (String c' s)))
      with (if Py.isspace c then Py.split (String c' s)
            else if Py.isspace c' then String c EmptyString :: Py.split (String c' s)
            else match Py.split (String c' s) with
                 | [] => [String c EmptyString]
                 | w :: ws => String c w :: ws
                 end).
    change (Py.split (String c (String c' r')))
      with (if Py.isspace c then Py.split (String c' r')
            else if Py.isspace c' then String c EmptyString :: Py.split (String c' r')
            else match Py.split (String c' r') with
                 | [] => [String c EmptyString]
                 | w :: ws => String c w :: ws
                 end).
    now rewrite IH.
Qed.

(** Stripping a line before splitting it changes nothing. *)
Lemma split_strip (s : string) : Py.split (Py.strip s) = Py.split s.
Proof. unfold Py.strip. now rewrite split_rstrip, split_lstrip. Qed.

Lemma split_token (w rest : string) :
  token w -> starts_space rest ->
  Py.split (w ++ rest)%string = w :: Py.split rest.
Proof.
  intros [Hne Hw]. revert Hne Hw. induction w as [|c w IH]; intros Hne Hw Hrest;
    [contradiction|].
  cbn [list_ascii_of_string] in Hw. inversion Hw as [|? ? Hc Hw']; subst.
  destruct w as [|c2 w].
  - change (String c EmptyString ++ rest)%string with (String c rest).
    rewrite split_cons, Hc.
    destruct rest as [|c' rest]; [reflexivity|].
    cbn [starts_space] in Hrest. now rewrite Hrest.
  - assert (IH' : Py.split (String c2 w ++ rest)%string = String c2 w :: Py.split rest).
    { apply IH; [discriminate|exact Hw'|exact Hrest]. }
    cbn [list_ascii_of_string] in Hw'. inversion Hw' as [|? ? Hc2 _]; subst.
    change (Py.split (String c (String c2 w) ++ rest)%string)
      with (if Py.isspace c then Py.split (String c2 (w ++ rest)%string)
            else if Py.isspace c2
                 then String c EmptyString :: Py.split (String c2 (w ++ rest)%string)
                 else match Py.split (String c2 (w ++ rest)%string) with
                      | [] => [String c EmptyString]
                      | x :: xs => String c x :: xs
                      end).
    rewrite Hc, Hc2.
    change (String c2 w ++ rest)%string with (String c2 (w ++ rest)%string) in IH'.
    now rewrite IH'.
Qed.

Lemma split_blanks (b rest : string) :
  blanks b -> Py.split (b ++ rest)%string = Py.split rest.
Proof.
  unfold blanks. induction b as [|c b IH]; intros Hb; [reflexivity|].
  cbn [list_ascii_of_string] in Hb. inversion Hb as [|? ? [Hc _] Hb']; subst.
  change (String c b ++ rest)%string with (String c (b ++ rest)%string).
  rewrite split_cons, Hc. now apply IH.
Qed.

Lemma blanks_starts_space (b rest : string) :
  blanks b -> b <> EmptyString -> starts_space (b ++ rest)%string.
Proof.
  intros Hb Hne. destruct b as [|c b]; [contradiction|].
  unfold blanks in Hb. cbn [list_ascii_of_string] in Hb.
  inversion Hb as [|? ? [Hc _] _]; subst. exact Hc.
Qed.

Lemma blanks_or_empty_starts_space (b : string) : blanks b -> starts_space b.
Proof.
  intros Hb. destruct b as [|c b]; [exact I|].
  unfold blanks in Hb. cbn [list_ascii_of_string] in Hb.
  inversion Hb as [|? ? [Hc _] _]; subst. exact Hc.
Qed.

(** The fields of a well-formed line, whatever blanks surround and
    separate them. *)
Lemma fields_well_formed (pad1 a sep1 t sep2 n pad2 : string) :
  token a -> token t -> token n ->
  blanks pad1 -> blanks pad2 ->
  blanks sep1 -> sep1 <> EmptyString -> blanks sep2 -> sep2 <> EmptyString ->
  fields (pad1 ++ a ++ sep1 ++ t ++ sep2 ++ n ++ pad2)%string = [a; t; n].
Proof.
  intros Ha Ht Hn Hp1 Hp2 Hs1 Hs1ne Hs2 Hs2ne.
  unfold fields. rewrite split_strip.
  rewrite (split_blanks pad1) by exact Hp1.
  rewrite (split_token a) by (try exact Ha; now apply blanks_starts_space).
  rewrite (split_blanks sep1) by exact Hs1.
  rewrite (split_token t) by (try exact Ht; now apply blanks_starts_space).
  rewrite (split_blanks sep2) by exact Hs2.
  rewrite (split_token n) by (try exact Hn; now apply blanks_or_empty_starts_space).
  replace pad2 with (pad2 ++ EmptyString)%string.
  - now rewrite (split_blanks pad2) by exact Hp2.
  - clear. induction pad2 as [|c p IH]; [reflexivity|].
    change (String c p ++ EmptyString)%string with (String c (p ++ EmptyString)%string).
    now f_equal.
Qed.

Lemma list_ascii_of_string_app (x y : string) :
  list_ascii_of_string (x ++ y)%string
  = list_ascii_of_string x ++ list_ascii_of_string y.
Proof.
  induction x as [|c x IH]; [reflexivity|].
  change (String c x ++ y)%string with (String c (x ++ y)%string).
  cbn [list_ascii_of_string]. now rewrite IH.
Qed.

Lemma no_break_app (x y : string) :
  no_break x -> no_break y -> no_break (x ++ y)%string.
Proof.
  unfold no_break. rewrite list_ascii_of_string_app. apply Forall_app_2.
Qed.

Lemma token_no_break (w : string) : token w -> no_break w.
Proof.
  intros [_ Hw]. unfold no_break. eapply Forall_impl; [exact Hw|].
  intros c Hc. split; intros ->; discriminate.
Qed.

Lemma blanks_no_break (b : string) : blanks b -> no_break b.
Proof.
  unfold blanks, no_break. intros Hb. eapply Forall_impl; [exact Hb|].
  now intros c (_ & H1 & H2).
Qed.

Lemma splitlines_one (s : string) :
  s <> EmptyString -> no_break s -> Py.splitlines s = [s].
Proof.
  unfold no_break. induction s as [|c s IH]; intros Hne Hs; [contradiction|].
  cbn [list_ascii_of_string] in Hs. inversion Hs as [|? ? [Hlf Hcr] Hs']; subst.
  cbn [Py.splitlines]. unfold Py.ascii_eqb.
  destruct (Ascii.eqb_spec c Py.LF) as [->|_]; [contradiction|].
  destruct (Ascii.eqb_spec c Py.CR) as [->|_]; [contradiction|].
  destruct s as [|c' s]; [reflexivity|].
  rewrite IH; [reflexivity|discriminate|exact Hs'].
Qed.

(** X2. A line made of an address, a type and a symbol, with blanks
    before, between and after them, has exactly these three fields;
    when the address is hexadecimal the parser records it under the
    symbol, in a longer map as well as alone. *)
Theorem LinuxConverter_ParseSystemMap_well_formed_line
    (pad1 a sep1 t sep2 n pad2 : string) (v : Z) :
  token a -> token t -> token n ->
  blanks pad1 -> blanks pad2 ->
  blanks sep1 -> sep1 <> EmptyString -> blanks sep2 -> sep2 <> EmptyString ->
  Py.long16 a = Some v ->
  let line := (pad1 ++ a ++ sep1 ++ t ++ sep2 ++ n ++ pad2)%string in
  (forall sys_map lines,
      LinuxConverter.ParseSystemMap_loop sys_map (line :: lines)
      = LinuxConverter.ParseSystemMap_loop (<[n := v]> sys_map) lines)
  /\ (forall self : Converter vtypes,
      LinuxConverter.ParseSystemMap line self = (Ok (<[n := v]> ∅), self)).
Proof.
  intros Ha Ht Hn Hp1 Hp2 Hs1 Hs1ne Hs2 Hs2ne Hv line.
  assert (Hf : fields line = [a; t; n]) by now apply fields_well_formed.
  assert (Hstep : forall sys_map lines,
    LinuxConverter.ParseSystemMap_loop sys_map (line :: lines)
    = LinuxConverter.ParseSystemMap_loop (<[n := v]> sys_map) lines).
  { intros sys_map lines. cbn [LinuxConverter.ParseSystemMap_loop].
    unfold fields in Hf. now rewrite Hf, Hv. }
  split; [exact Hstep|].
  intros self. unfold LinuxConverter.ParseSystemMap, lift.
  rewrite splitlines_one.
  - now rewrite Hstep.
  - unfold line. intros E.
    assert (Hl : list_ascii_of_string (pad1 ++ a ++ sep1 ++ t ++ sep2 ++ n ++ pad2)%string
                 = []) by now rewrite E.
    rewrite !list_ascii_of_string_app in Hl.
    apply app_eq_nil in Hl as [_ Hl]. apply app_eq_nil in Hl as [Hl _].
    destruct Ha as [Hane _]. destruct a; [contradiction|discriminate].
  - unfold line.
    repeat apply no_break_app;
      auto using token_no_break, blanks_no_break.
Qed.

(** ** The Darwin symbol table *)

(** X3. With an explicit profile class the Darwin parser never raises
    and leaves the converter as it was: the ["Symbol table for"] lines
    are not inspected, whatever their last field, and the table is the
    one built by recording the lines in order. *)
Theorem OSXConverter_ParseSystemMap_explicit_class
    (system_map c : string) (i : input_handle) (o : Output vtypes) :
  OSXConverter.ParseSystemMap system_map (mkConverter i o (Some c))
  = (Ok (foldl OSXConverter.record_symbol ∅ (Py.splitlines system_map)),
     mkConverter i o (Some c)).
Proof.
  unfold OSXConverter.ParseSystemMap.
  apply OSXConverter_ParseSystemMap_loop_known.
Qed.

Lemma OSXConverter_ParseSystemMap_loop_failure (lines : list string) :
  forall sys_map i (o : Output vtypes) pc e self',
  OSXConverter.ParseSystemMap_loop sys_map lines (mkConverter i o pc) = (Raise e, self') ->
  pc = None
  /\ self' = mkConverter i o None
  /\ exists line last_part,
      line ∈ lines
      /\ Py.contains "Symbol table for" line = true
      /\ last (Py.split line) = Some last_part
      /\ last_part <> "(x86_64)" /\ last_part <> "(i386)"
      /\ e = RuntimeError ("Unknown Darwin Architecture " ++ last_part)%string.
Proof.
  induction lines as [|line lines IH]; intros sys_map i o pc e self'.
  - discriminate.
  - destruct pc as [c|].
    { rewrite OSXConverter_ParseSystemMap_loop_known. discriminate. }
    cbn [OSXConverter.ParseSystemMap_loop].
    unfold bind at 1, get_profile_class. cbn [profile_class].
    rewrite bool_decide_eq_true_2 by reflexivity.
    destruct (Py.contains "Symbol table for" line) eqn:Hline; cbn [andb].
    + unfold bind, OSXConverter.detect_architecture.
      destruct (header_has_last_part line Hline) as [t Ht]. rewrite Ht.
      destruct (String.eqb_spec t "(x86_64)") as [->|H64].
      { unfold set_profile_class. cbn [input output profile_class].
        rewrite OSXConverter_ParseSystemMap_loop_known. discriminate. }
      destruct (String.eqb_spec t "(i386)") as [->|H32].
      { unfold set_profile_class. cbn [input output profile_class].
        rewrite OSXConverter_ParseSystemMap_loop_known. discriminate. }
      unfold raise. intros [= <- <-]. split; [reflexivity|]. split; [reflexivity|].
      exists line, t. repeat split; try assumption. left.
    + unfold bind, ret. intros Hrest.
      apply IH in Hrest as (_ & -> & l & t & Hl & Hrest).
      split; [reflexivity|]. split; [reflexivity|].
      exists l, t. split; [now right|exact Hrest].
Qed.

(** X4. The Darwin parser fails in one way only: with no explicit
    class, on a ["Symbol table for"] line whose last field is neither
    [(x86_64)] nor [(i386)], by the unknown-architecture [RuntimeError]
    that names the field; the converter is then unchanged.  A bad
    address or a line without fields never makes it raise. *)
Theorem OSXConverter_ParseSystemMap_only_failure
    (system_map : string) (i : input_handle) (o : Output vtypes)
    (pc : option string) (e : exception) (self' : Converter vtypes) :
  OSXConverter.ParseSystemMap system_map (mkConverter i o pc) = (Raise e, self') ->
  pc = None
  /\ self' = mkConverter i o None
  /\ exists line last_part,
      line ∈ Py.splitlines system_map
      /\ Py.contains "Symbol table for" line = true
      /\ last (Py.split line) = Some last_part
      /\ last_part <> "(x86_64)" /\ last_part <> "(i386)"
      /\ e = RuntimeError ("Unknown Darwin Architecture " ++ last_part)%string.
Proof.
  unfold OSXConverter.ParseSystemMap. apply OSXConverter_ParseSystemMap_loop_failure.
Qed.

(** ** What a conversion leaves in the output archive *)

Ltac run_methods :=
  unfold ProfileConverter.SelectFile, LinuxConverter.ParseSystemMap,
    bind, lift, ret, raise, get_input, update_output, init;
  cbn [input output profile_class].

Ltac case_tests :=
  repeat (cbn [input output profile_class];
          match goal with
          | |- context [match ?x with _ => _ end] => destruct x eqn:?
          end);
  cbn [input output profile_class].

Lemma LinuxConverter_WriteProfile_effect (base : string) (system_map : gmap string Z)
    (vt : vtypes) (i : input_handle) (o : Output vtypes) (pc : option string) :
  (exists c,
      LinuxConverter.WriteProfile base system_map vt (mkConverter i o pc)
      = (Ok tt, mkConverter i (stored system_map vt (Some c) o) (Some c)))
  \/ (exists e,
      LinuxConverter.WriteProfile base system_map vt (mkConverter i o pc)
      = (Raise e, mkConverter i o pc)).
Proof.
  destruct pc as [c|].
  - left. exists c. apply LinuxConverter_WriteProfile_Some.
  - rewrite LinuxConverter_WriteProfile_None.
    destruct (py_max (values system_map)) as [mx|e]; cbn zeta; eauto.
Qed.

(** The Linux conversion up to the writer, with the output it has then:
    the one it started with, or that one with module.ko added. *)
Lemma LinuxConverter_Convert_split_output (a : Archive) (out : Output vtypes) :
  exists (r : result (gmap string Z * vtypes)) (out1 : Output vtypes),
  (forall pc,
    LinuxConverter.Convert (mkConverter (InArchive a) out pc)
    = match r with
      | Ok (system_map, vt) =>
          LinuxConverter.WriteProfile "Linux" system_map vt
            (mkConverter (InArchive a) out1 pc)
      | Raise e => (Raise e, mkConverter (InArchive a) out1 pc)
      end)
  /\ (out1 = out \/ exists ko_file, out1 = Create_write "module.ko" ko_file out).
Proof.
  unfold LinuxConverter.Convert. run_methods.
  case_tests.
  all: first
    [ eexists (Ok (_, _)), _; split; [intros pc; reflexivity|];
      first [left; reflexivity | right; eexists; reflexivity]
    | eexists (Raise _), _; split; [intros pc; reflexivity|];
      first [left; reflexivity | right; eexists; reflexivity] ].
Qed.

(** The state in which a conversion ends.  The output is the one it
    started with, except that the Linux variant may have added
    module.ko; a conversion that completes has stored its three entries
    on top of it, and one that raises has stored nothing else. *)
Lemma Convert_effect (cls : converter_class) (i : input_handle)
    (o : Output vtypes) (pc : option string)
    (r : result unit) (self' : Converter vtypes) :
  Convert cls (mkConverter i o pc) = (r, self') ->
  exists out1,
    (out1 = o
     \/ (cls = LinuxConverter_cls /\ exists ko_file, out1 = Create_write "module.ko" ko_file o))
    /\ ((r = Ok tt
         /\ exists system_map vt c,
             self' = mkConverter i (stored system_map vt (Some c) out1) (Some c))
        \/ (exists e pc', r = Raise e /\ self' = mkConverter i out1 pc')).
Proof.
  destruct cls; cbn [Convert].
  - destruct i as [a|path].
    + destruct (LinuxConverter_Convert_split_output a o) as (r0 & out1 & Hsplit & Hout).
      rewrite Hsplit. intros Hconv. exists out1. split.
      { destruct Hout as [->|Hko]; [now left|right; now split]. }
      destruct r0 as [[m vt]|e].
      * destruct (LinuxConverter_WriteProfile_effect "Linux" m vt (InArchive a) out1 pc)
          as [[c Hw]|[e Hw]]; rewrite Hw in Hconv; injection Hconv as <- <-; eauto 10.
      * injection Hconv as <- <-. eauto 10.
    + intros [= <- <-]. exists o. split; [now left|]. right. eauto.
  - destruct i as [a|path].
    + destruct (OSXConverter_Convert_split a) as [r0 Hsplit]. rewrite Hsplit.
      intros Hconv. exists o. split; [now left|].
      destruct (ProfileConverter.SelectFile_loop a OSXConverter.re_dsymutil (ListFiles a))
        as [[[|c0 s0]|]|e]; try (injection Hconv as <- <-; eauto 10).
      unfold OSXConverter.ParseSystemMap in Hconv.
      destruct (OSXConverter_ParseSystemMap_loop_frame
                  (Py.splitlines (String c0 s0)) ∅ (InArchive a) o pc)
        as (r1 & pc' & Hparse).
      rewrite Hparse in Hconv.
      destruct r1 as [m|e]; [|injection Hconv as <- <-; eauto 10].
      destruct r0 as [vt|e]; [|injection Hconv as <- <-; eauto 10].
      destruct (LinuxConverter_WriteProfile_effect "Darwin" m vt (InArchive a) o pc')
        as [[c Hw]|[e Hw]]; rewrite Hw in Hconv; injection Hconv as <- <-; eauto 10.
    + intros [= <- <-]. exists o. split; [now left|]. right. eauto.
  - unfold WindowsConverter.Convert. run_methods. unfold get_profile_class.
    cbn [profile_class input].
    intros Hconv. exists o. split; [now left|].
    destruct pc as [[|c0 s0]|]; try (injection Hconv as <- <-; eauto 10).
    cbn [input] in Hconv.
    destruct i as [a|path]; [injection Hconv as <- <-; eauto 10|].
    destruct (open_rb path) as [code|e]; [|injection Hconv as <- <-; eauto 10].
    destruct (exec code) as [l|e]; [|injection Hconv as <- <-; eauto 10].
    destruct (LinuxConverter.getitem l "ntkrnlmp_types") as [vt|e];
      [|injection Hconv as <- <-; eauto 10].
    rewrite ProfileConverter_WriteProfile_eq in Hconv.
    injection Hconv as <- <-. left. split; [reflexivity|]. eauto.
Qed.

(** X5. A conversion writes under four names only, Constants.json,
    vtypes.json, metadata and module.ko, and only the Linux variant
    writes module.ko: every other entry of the output archive is as it
    was, whether the conversion completes or raises, and the converter
    keeps its input. *)
Theorem Convert_writes_four_names (cls : converter_class) (self : Converter vtypes)
    (name : string) :
  let self' := (Convert cls self).2 in
  input self' = input self
  /\ (name <> "Constants.json" -> name <> "vtypes.json" -> name <> "metadata" ->
      name <> "module.ko" \/ cls <> LinuxConverter_cls ->
      output self' !! name = output self !! name).
Proof.
  destruct self as [i o pc]. cbn zeta.
  destruct (Convert cls (mkConverter i o pc)) as [r self'] eqn:Hconv.
  apply Convert_effect in Hconv as (out1 & Hout & Hend). cbn [snd input output].
  assert (Hin : input self' = i).
  { destruct Hend as [(_ & m & vt & c & ->)|(e & pc' & _ & ->)]; reflexivity. }
  split; [exact Hin|]. intros Hn1 Hn2 Hn3 Hko.
  assert (Hout1 : out1 !! name = o !! name).
  { destruct Hout as [->|[Hcls [ko ->]]]; [reflexivity|].
    destruct Hko as [Hko|Hko]; [|contradiction].
    unfold Create_write, Output. now rewrite lookup_insert_ne by congruence. }
  destruct Hend as [(_ & m & vt & c & ->)|(e & pc' & _ & ->)]; cbn [output].
  - now rewrite stored_other by assumption.
  - exact Hout1.
Qed.

(** X6. A conversion that raises has written no part of the profile:
    Constants.json, vtypes.json and metadata, like every entry but
    module.ko, are as they were before, and for the Darwin and Windows
    variants the whole output archive is. *)
Theorem Convert_failure_writes_no_profile (cls : converter_class)
    (self self' : Converter vtypes) (e : exception) :
  Convert cls self = (Raise e, self') ->
  (forall name, name <> "module.ko" -> output self' !! name = output self !! name)
  /\ (cls <> LinuxConverter_cls -> output self' = output self).
Proof.
  destruct self as [i o pc]. intros Hconv.
  apply Convert_effect in Hconv as (out1 & Hout & Hend).
  destruct Hend as [[Hr _]|(e' & pc' & _ & ->)]; [discriminate|]. cbn [output].
  split.
  - intros name Hname. destruct Hout as [->|[_ [ko ->]]]; [reflexivity|].
    unfold Create_write, Output. now rewrite lookup_insert_ne by congruence.
  - intros Hcls. destruct Hout as [->|[Hl _]]; [reflexivity|contradiction].
Qed.

(** ** The dispatcher and the markers *)

(** A marker entry that is missing, or whose first match is empty, makes
    the variant raise the format failure and change nothing. *)
Lemma LinuxConverter_Convert_no_marker (a : Archive) (out : Output vtypes)
    (pc : option string) :
  ProfileConverter.SelectFile_loop a LinuxConverter.re_System_map (ListFiles a) = Ok None
  \/ ProfileConverter.SelectFile_loop a LinuxConverter.re_System_map (ListFiles a)
     = Ok (Some EmptyString) ->
  LinuxConverter.Convert (mkConverter (InArchive a) out pc)
  = (Raise (RuntimeError "Unknown profile format."), mkConverter (InArchive a) out pc).
Proof.
  intros Hsel. unfold LinuxConverter.Convert. run_methods.
  now destruct Hsel as [-> | ->].
Qed.

Lemma OSXConverter_Convert_no_marker (a : Archive) (out : Output vtypes)
    (pc : option string) :
  ProfileConverter.SelectFile_loop a OSXConverter.re_dsymutil (ListFiles a) = Ok None
  \/ ProfileConverter.SelectFile_loop a OSXConverter.re_dsymutil (ListFiles a)
     = Ok (Some EmptyString) ->
  OSXConverter.Convert (mkConverter (InArchive a) out pc)
  = (Raise (RuntimeError "Unknown profile format."), mkConverter (InArchive a) out pc).
Proof.
  intros Hsel. unfold OSXConverter.Convert. run_methods.
  now destruct Hsel as [-> | ->].
Qed.

(** X7. When the first entry whose name matches [(^|/)System.map] is
    empty, the Linux variant does not recognize the archive: it raises
    the format failure and writes nothing, even if a later entry of that
    name has content and a type table is there. *)
Theorem LinuxConverter_Convert_empty_marker
    (pre post : Archive) (f : string) (out : Output vtypes) (pc : option string) :
  Forall (fun e => Re.search LinuxConverter.re_System_map e.1 true = None) pre ->
  Re.search LinuxConverter.re_System_map f true <> None ->
  let self := init (InArchive (pre ++ (f, EmptyString) :: post)) out pc in
  LinuxConverter.Convert self = (Raise (RuntimeError "Unknown profile format."), self).
Proof.
  intros Hpre Hf self. apply LinuxConverter_Convert_no_marker. right.
  now apply SelectFile_loop_first.
Qed.

(** X8. On an archive with no name matching [(^|/)System.map], the
    dispatcher gives the result of the Darwin variant run on the
    untouched output, except that a [RuntimeError] of that variant
    becomes the no-suitable-converter failure. *)
Theorem ConvertProfile_without_Linux_marker
    (a : Archive) (out : Output vtypes) (pc : option string) :
  Forall (fun e => Re.search LinuxConverter.re_System_map e.1 true = None) a ->
  ConvertProfile a out pc
  = match OSXConverter.Convert (init (InArchive a) out None) with
    | (Ok _, self) => (Ok tt, output self)
    | (Raise e, self) =>
        if is_RuntimeError e
        then (Raise (RuntimeError "No suitable converter found - profile not recognized."),
              output self)
        else (Raise e, output self)
    end.
Proof.
  intros Hno. unfold ConvertProfile. cbn [ConvertProfile_loop Convert]. unfold init.
  rewrite LinuxConverter_Convert_no_marker by (left; now apply SelectFile_loop_none).
  cbn [is_RuntimeError output].
  destruct (OSXConverter.Convert (mkConverter (InArchive a) out None)) as [[[]|e] self];
    [reflexivity|].
  now destruct (is_RuntimeError e).
Qed.

(** X9. On an archive with no name matching [(^|/)System.map] and none
    matching [dsymutil$], the dispatcher raises the
    no-suitable-converter failure and leaves the output archive as it
    was. *)
Theorem ConvertProfile_no_marker
    (a : Archive) (out : Output vtypes) (pc : option string) :
  Forall (fun e => Re.search LinuxConverter.re_System_map e.1 true = None) a ->
  Forall (fun e => Re.search OSXConverter.re_dsymutil e.1 true = None) a ->
  ConvertProfile a out pc
  = (Raise (RuntimeError "No suitable converter found - profile not recognized."), out).
Proof.
  intros Hlinux Hosx. unfold ConvertProfile. cbn [ConvertProfile_loop Convert]. unfold init.
  rewrite LinuxConverter_Convert_no_marker by (left; now apply SelectFile_loop_none).
  cbn [is_RuntimeError output].
  rewrite OSXConverter_Convert_no_marker by (left; now apply SelectFile_loop_none).
  reflexivity.
Qed.

(** X10. The only [RuntimeError] that leaves the dispatcher is its own:
    whatever [RuntimeError] a variant raises, format failure or not, the
    caller sees the no-suitable-converter failure in its place. *)
Theorem ConvertProfile_masks_RuntimeError
    (a : Archive) (out out' : Output vtypes) (pc : option string) (e : exception) :
  ConvertProfile a out pc = (Raise e, out') ->
  is_RuntimeError e = true ->
  e = RuntimeError "No suitable converter found - profile not recognized.".
Proof.
  unfold ConvertProfile. cbn [ConvertProfile_loop Convert].
  destruct (LinuxConverter.Convert (init (InArchive a) out None)) as [[[]|e1] self1];
    [discriminate|].
  destruct (is_RuntimeError e1) eqn:E1.
  - destruct (OSXConverter.Convert (init (InArchive a) (output self1) None))
      as [[[]|e2] self2]; [discriminate|].
    destruct (is_RuntimeError e2) eqn:E2.
    + now intros [= <- _].
    + intros [= <- _]. congruence.
  - intros [= <- _]. congruence.
Qed.

(** ** The source of the type table *)

(** X11. The kernel module comes first: when an entry matching [\.ko$]
    is selected and its parser gives a type table, the Linux conversion
    copies the module to module.ko and writes that table; the [.dwarf]
    and [.json] entries of the archive play no part. *)
Theorem LinuxConverter_Convert_module_first
    (a : Archive) (out : Output vtypes) (pc : option string)
    (text ko_file : string) (system_map : gmap string Z)
    (parser : ko_parser) (vt : vtypes) :
  let self := init (InArchive a) out pc in
  ProfileConverter.SelectFile LinuxConverter.re_System_map self = (Ok (Some text), self) ->
  text <> EmptyString ->
  LinuxConverter.ParseSystemMap text self = (Ok system_map, self) ->
  ProfileConverter.SelectFile LinuxConverter.re_ko self = (Ok (Some ko_file), self) ->
  ko_file <> EmptyString ->
  ko_DWARFParser ko_file = Ok parser ->
  ko_VType parser = Ok vt ->
  LinuxConverter.Convert self
  = LinuxConverter.WriteProfile "Linux" system_map vt
      (init (InArchive a) (Create_write "module.ko" ko_file out) pc).
Proof.
  intros self Hmap Hne Hparse Hko Hkne Hparser Hvt. unfold self, init in *.
  unfold LinuxConverter.Convert.
  unfold ProfileConverter.SelectFile, LinuxConverter.ParseSystemMap,
    bind, get_input, lift in *.
  cbn [input] in *.
  injection Hmap as Hmap. injection Hparse as Hparse. injection Hko as Hko.
  rewrite Hmap.
  destruct text as [|c0 s0]; [contradiction|]. rewrite Hparse.
  cbn [input]. rewrite Hko.
  destruct ko_file as [|c1 s1]; [contradiction|]. rewrite Hparser.
  unfold update_output. cbn [input output profile_class]. now rewrite Hvt.
Qed.

(** X12. The [.json] entry comes last: it is read only when no entry
    matching [\.ko$] or [\.dwarf$] has content.  The conversion then
    stores the parsed symbol table and the decoded type table as they
    are, adds no module.ko, and writes the explicit class it was
    given. *)
Theorem LinuxConverter_Convert_json_pass_through
    (a : Archive) (out : Output vtypes) (c : string)
    (text json_file : string) (ko_file dwarf_file : option string)
    (system_map : gmap string Z) (vt : vtypes) :
  let self := init (InArchive a) out (Some c) in
  ProfileConverter.SelectFile LinuxConverter.re_System_map self = (Ok (Some text), self) ->
  text <> EmptyString ->
  LinuxConverter.ParseSystemMap text self = (Ok system_map, self) ->
  ProfileConverter.SelectFile LinuxConverter.re_ko self = (Ok ko_file, self) ->
  truthy ko_file = false ->
  ProfileConverter.SelectFile LinuxConverter.re_dwarf self = (Ok dwarf_file, self) ->
  truthy dwarf_file = false ->
  ProfileConverter.SelectFile LinuxConverter.re_json self = (Ok (Some json_file), self) ->
  json_file <> EmptyString ->
  json_loads json_file = Ok vt ->
  LinuxConverter.Convert self
  = (Ok tt, init (InArchive a) (stored system_map vt (Some c) out) (Some c)).
Proof.
  intros self Hmap Hne Hparse Hko Hkf Hdwarf Hdf Hjson Hjne Hvt. unfold self, init in *.
  unfold LinuxConverter.Convert.
  unfold ProfileConverter.SelectFile, LinuxConverter.ParseSystemMap,
    bind, get_input, lift in *.
  cbn [input] in *.
  injection Hmap as Hmap. injection Hparse as Hparse. injection Hko as Hko.
  injection Hdwarf as Hdwarf. injection Hjson as Hjson.
  rewrite Hmap.
  destruct text as [|c0 s0]; [contradiction|]. rewrite Hparse.
  cbn [input]. rewrite Hko.
  destruct ko_file as [[|c1 s1]|]; try discriminate;
    cbn [input]; rewrite Hdwarf;
    destruct dwarf_file as [[|c2 s2]|]; try discriminate;
    cbn [input]; rewrite Hjson;
    (destruct json_file as [|c3 s3]; [contradiction|]);
    rewrite Hvt; apply LinuxConverter_WriteProfile_Some.
Qed.


(** ** The Windows variant and the command line *)

(** X14. A Windows conversion completes only when it was given a
    non-empty class and a file name, the file could be read, and its
    code binds [ntkrnlmp_types]; it then stores an empty symbol table,
    that type table and the class it was given. *)
Theorem WindowsConverter_Convert_completes
    (self self' : Converter vtypes) :
  WindowsConverter.Convert self = (Ok tt, self') ->
  exists c path code l vt,
    profile_class self = Some c /\ c <> EmptyString
    /\ input self = InPath path
    /\ open_rb path = Ok code
    /\ exec code = Ok l
    /\ l !! "ntkrnlmp_types" = Some vt
    /\ self' = mkConverter (input self) (stored ∅ vt (Some c) (output self)) (Some c).
Proof.
  destruct self as [i o pc].
  unfold WindowsConverter.Convert. run_methods. unfold get_profile_class.
  cbn [profile_class input].
  destruct pc as [[|c0 s0]|]; try discriminate.
  cbn [input]. destruct i as [a|path]; [discriminate|].
  destruct (open_rb path) as [code|e] eqn:Hopen; [|discriminate].
  destruct (exec code) as [l|e] eqn:Hexec; [|discriminate].
  unfold LinuxConverter.getitem.
  destruct (l !! "ntkrnlmp_types") as [vt|] eqn:Hl; [|discriminate].
  rewrite ProfileConverter_WriteProfile_eq. intros [= <-].
  exists (String c0 s0), path, code, l, vt.
  repeat split; try assumption; discriminate.
Qed.

(** X15. A converter built with an explicit class writes that class and
    no other: whatever the variant, a conversion that completes has the
    given class in its metadata entry and keeps it. *)
Theorem Convert_explicit_class (cls : converter_class) (i : input_handle)
    (o : Output vtypes) (c : string) (self' : Converter vtypes) :
  Convert cls (mkConverter i o (Some c)) = (Ok tt, self') ->
  profile_class self' = Some c
  /\ output self' !! "metadata"
     = Some (MetadataData (Some c) "Constants.json" "vtypes.json").
Proof.
  intros Hconv.
  assert (Hmeta : output self' !! "metadata"
                  = Some (MetadataData (Some c) "Constants.json" "vtypes.json")).
  { destruct cls; cbn [Convert] in Hconv.
    - destruct i as [a|path]; [|discriminate].
      apply LinuxConverter_Convert_Ok in Hconv as (c' & Hc & ->). exact Hc.
    - destruct i as [a|path]; [|discriminate].
      apply OSXConverter_Convert_Ok in Hconv as (c' & Hc & ->). exact Hc.
    - apply WindowsConverter_Convert_Ok in Hconv as (c' & [= <-] & _ & Hc). exact Hc. }
  split; [|exact Hmeta].
  apply Convert_effect in Hconv as (out1 & _ & [(_ & m & vt & c' & ->)|(e & pc' & He & _)]);
    [|discriminate].
  cbn [output profile_class] in *. rewrite stored_metadata in Hmeta. congruence.
Qed.

(** X16. On the command line, naming the Linux or the Darwin converter
    with [--converter] cannot convert anything: [main] builds the
    converter on the name of the source file, not on an opened archive,
    so that once the destination is opened the conversion raises
    [AttributeError] at its first [SelectFile] and writes nothing. *)
Theorem main_named_archive_converter
    (flags : Flags) (name : string) (cls : converter_class) (out : Output vtypes) :
  flag_converter flags = Some name ->
  name <> EmptyString ->
  classes_get name = Some cls ->
  cls <> WindowsConverter_cls ->
  Factory_w (flag_destination flags) = Ok out ->
  main flags
  = (Raise (AttributeError "'str' object has no attribute 'ListFiles'"), Some out).
Proof.
  intros Hflag Hne Hcls Hwin Hout. unfold main. rewrite Hout, Hflag.
  destruct name as [|c0 s0]; [contradiction|].
  change (default EmptyString (Some (String c0 s0))) with (String c0 s0).
  cbn [truthy]. rewrite Hcls.
  destruct cls; [reflexivity|reflexivity|contradiction].
Qed.

(** ** The pattern of the dsymutil lines *)

Lemma rmatch_Plus_NotChar_loop (k : Re.cont) (s : string) :
  forall n pos caps,
  (String.length s <= n)%nat ->
  (fix loop (n : nat) (pos : nat) (s : string) (caps : Re.captures)
     {struct n} : option Re.captures :=
     Re.rmatch false (Re.NotChar " ") pos s caps (fun pos' s' caps' =>
       match n with
       | S n' =>
           if (String.length s' <? String.length s)%nat then
             match loop n' pos' s' caps' with
             | Some c => Some c
             | None => k pos' s' caps'
             end
           else k pos' s' caps'
       | O => k pos' s' caps'
       end)) n pos s caps
  = greedy_run k pos s caps.
Proof.
  induction s as [|a s IH]; intros n pos caps Hn.
  - destruct n; reflexivity.
  - destruct n as [|n]; [cbn in Hn; lia|].
    cbn [Re.rmatch greedy_run]. unfold Re.chr_eq, Py.ascii_eqb.
    destruct (Ascii.eqb " " a); [reflexivity|].
    assert (Hlt : (String.length s <? String.length (String a s))%nat = true).
    { apply Nat.ltb_lt. cbn. lia. }
    rewrite Hlt. rewrite IH by (cbn in Hn; lia). reflexivity.
Qed.

Lemma rmatch_Plus_NotChar (k : Re.cont) (pos : nat) (s : string) (caps : Re.captures) :
  Re.rmatch false (Re.Plus (Re.NotChar " ")) pos s caps k = greedy_run k pos s caps.
Proof.
  cbn [Re.rmatch]. now apply rmatch_Plus_NotChar_loop.
Qed.

Lemma greedy_run_stops (k : Re.cont) (pos : nat) (rest : string) (caps : Re.captures) :
  match rest with
  | EmptyString => True
  | String c _ => c = " "%char
  end ->
  greedy_run k pos rest caps = None.
Proof.
  destruct rest as [|c rest]; [reflexivity|]. intros ->. reflexivity.
Qed.

(** The longest run is tried first. *)
Lemma greedy_run_longest (k : Re.cont) (w rest : string) :
  word w ->
  match rest with
  | EmptyString => True
  | String c _ => c = " "%char
  end ->
  forall pos caps c,
  k (pos + String.length w)%nat rest caps = Some c ->
  greedy_run k pos (w ++ rest)%string caps = Some c.
Proof.
  intros [Hne Hw] Hrest. revert Hne Hw.
  induction w as [|a w IH]; intros Hne Hw pos caps c Hk; [contradiction|].
  cbn [list_ascii_of_string] in Hw. inversion Hw as [|? ? Ha Hw']; subst.
  change (String a w ++ rest)%string with (String a (w ++ rest)%string).
  cbn [greedy_run].
  destruct (Ascii.eqb_spec " " a) as [<-|_]; [contradiction|].
  destruct w as [|b w].
  - change (EmptyString ++ rest)%string with rest.
    rewrite greedy_run_stops by exact Hrest.
    cbn [String.length] in Hk. now replace (pos + 1)%nat with (S pos) in Hk by lia.
  - rewrite (IH ltac:(discriminate) Hw' (S pos) caps c); [reflexivity|].
    cbn [String.length] in Hk |- *.
    now replace (S pos + S (String.length w))%nat
      with (pos + S (S (String.length w)))%nat by lia.
Qed.

(** When the continuation refuses the longest run and accepts the run
    short of the last character, that one is taken. *)
Lemma greedy_run_but_last (k : Re.cont) (w : string) (q : ascii) :
  word w -> q <> " "%char ->
  forall pos caps c,
  k (pos + String.length w + 1)%nat EmptyString caps = None ->
  k (pos + String.length w)%nat (String q EmptyString) caps = Some c ->
  greedy_run k pos (w ++ String q EmptyString)%string caps = Some c.
Proof.
  intros [Hne Hw] Hq. revert Hne Hw.
  induction w as [|a w IH]; intros Hne Hw pos caps c Hfull Hk; [contradiction|].
  cbn [list_ascii_of_string] in Hw. inversion Hw as [|? ? Ha Hw']; subst.
  change (String a w ++ String q EmptyString)%string
    with (String a (w ++ String q EmptyString)%string).
  cbn [greedy_run].
  destruct (Ascii.eqb_spec " " a) as [<-|_]; [contradiction|].
  destruct w as [|b w].
  - change (EmptyString ++ String q EmptyString)%string with (String q EmptyString).
    cbn [greedy_run].
    destruct (Ascii.eqb_spec " " q) as [<-|_]; [contradiction|].
    cbn [String.length] in Hfull, Hk.
    replace (pos + 1 + 1)%nat with (S (S pos)) in Hfull by lia.
    replace (pos + 1)%nat with (S pos) in Hk by lia.
    now rewrite Hfull, Hk.
  - rewrite (IH ltac:(discriminate) Hw' (S pos) caps c); [reflexivity| |].
    + cbn [String.length] in Hfull |- *.
      now replace (S pos + S (String.length w) + 1)%nat
        with (pos + S (S (String.length w)) + 1)%nat by lia.
    + cbn [String.length] in Hk |- *.
      now replace (S pos + S (String.length w))%nat
        with (pos + S (S (String.length w)))%nat by lia.
Qed.

(** A run that succeeds has passed no space. *)
Lemma greedy_run_inv (k : Re.cont) (s : string) :
  forall pos caps c,
  greedy_run k pos s caps = Some c ->
  exists w rest,
    s = (w ++ rest)%string /\ spaces w = O
    /\ k (pos + String.length w)%nat rest caps = Some c.
Proof.
  induction s as [|a s IH]; intros pos caps c; [discriminate|].
  cbn [greedy_run]. destruct (Ascii.eqb " " a) eqn:Ea; [discriminate|].
  destruct (greedy_run k (S pos) s caps) as [c'|] eqn:Hrun.
  - intros [= <-]. apply IH in Hrun as (w & rest & -> & Hw & Hk).
    exists (String a w), rest. split; [reflexivity|]. split.
    + cbn [spaces]. now rewrite Ea, Hw.
    + cbn [String.length]. now replace (pos + S (String.length w))%nat
        with (S pos + String.length w)%nat by lia.
  - intros Hk. exists (String a EmptyString), s. split; [reflexivity|]. split.
    + cbn [spaces]. now rewrite Ea.
    + cbn [String.length]. now replace (pos + 1)%nat with (S pos) by lia.
Qed.

Lemma spaces_app (x y : string) : spaces (x ++ y)%string = (spaces x + spaces y)%nat.
Proof.
  induction x as [|c x IH]; [reflexivity|].
  change (String c x ++ y)%string with (String c (x ++ y)%string).
  cbn [spaces]. rewrite IH. lia.
Qed.

Lemma word_spaces (w : string) : word w -> spaces w = O.
Proof.
  intros [_ Hw]. induction w as [|c w IH]; [reflexivity|].
  cbn [list_ascii_of_string] in Hw. inversion Hw as [|? ? Hc Hw']; subst.
  cbn [spaces]. destruct (Ascii.eqb_spec " " c) as [<-|_]; [contradiction|].
  now rewrite IH.
Qed.

Lemma take_app (w rest : string) : Re.take (String.length w) (w ++ rest)%string = w.
Proof.
  induction w as [|c w IH]; [now destruct rest|].
  change (String c w ++ rest)%string with (String c (w ++ rest)%string).
  cbn [String.length Re.take]. now rewrite IH.
Qed.

Lemma rmatch_Cat i r1 r2 pos s caps k :
  Re.rmatch i (Re.Cat r1 r2) pos s caps k
  = Re.rmatch i r1 pos s caps (fun pos' s' caps' => Re.rmatch i r2 pos' s' caps' k).
Proof. reflexivity. Qed.

Lemma rmatch_Group i n r pos s caps k :
  Re.rmatch i (Re.Group n r) pos s caps k
  = Re.rmatch i r pos s caps (fun pos' s' caps' =>
      k pos' s' ((n, Re.take (pos' - pos) s) :: caps')).
Proof. reflexivity. Qed.

Lemma rmatch_Lit c pos a s caps k :
  Re.rmatch false (Re.Lit c) pos (String a s) caps k
  = if Ascii.eqb c a then k (S pos) s caps else None.
Proof. reflexivity. Qed.

(** The pattern matches a word, a space and a quoted word that end the
    subject, and captures the two words. *)
Lemma DLSYM_REGEX_match (A B : string) (pos : nat) :
  word A -> word B ->
  Re.rmatch false OSXConverter.DLSYM_REGEX pos
    (A ++ String " " (String "'" (B ++ String "'" EmptyString)))%string []
    (fun _ _ caps => Some caps)
  = Some [(2%nat, B); (1%nat, A)].
Proof.
  intros HA HB. unfold OSXConverter.DLSYM_REGEX.
  rewrite rmatch_Cat, rmatch_Group, rmatch_Plus_NotChar.
  apply greedy_run_longest; [exact HA|reflexivity|]. cbv beta.
  replace (pos + String.length A - pos)%nat with (String.length A) by lia.
  rewrite take_app.
  cbn [Re.Lits]. rewrite !rmatch_Cat, rmatch_Lit, Ascii.eqb_refl. cbv beta.
  rewrite rmatch_Lit, Ascii.eqb_refl. cbv beta.
  rewrite rmatch_Cat, rmatch_Group, rmatch_Plus_NotChar.
  apply greedy_run_but_last; [exact HB|discriminate| |].
  - reflexivity.
  - cbv beta. rewrite rmatch_Cat, rmatch_Lit, Ascii.eqb_refl.
    cbn [Re.rmatch].
    replace (S (S (pos + String.length A)) + String.length B
             - S (S (pos + String.length A)))%nat
      with (String.length B) by lia.
    now rewrite take_app.
Qed.

(** A subject that the pattern matches from its start has one space. *)
Lemma DLSYM_REGEX_one_space (s : string) (pos : nat) (c : Re.captures) :
  Re.rmatch false OSXConverter.DLSYM_REGEX pos s [] (fun _ _ caps => Some caps) = Some c ->
  spaces s = 1%nat.
Proof.
  unfold OSXConverter.DLSYM_REGEX.
  rewrite rmatch_Cat, rmatch_Group, rmatch_Plus_NotChar.
  intros Hrun. apply greedy_run_inv in Hrun as (w & rest & -> & Hw & Hk).
  cbv beta in Hk. cbn [Re.Lits] in Hk. rewrite !rmatch_Cat in Hk.
  destruct rest as [|a1 rest]; [discriminate|].
  rewrite rmatch_Lit in Hk.
  destruct (Ascii.eqb_spec " " a1) as [<-|_]; [|discriminate].
  cbv beta in Hk.
  destruct rest as [|a2 rest]; [discriminate|].
  rewrite rmatch_Lit in Hk.
  destruct (Ascii.eqb_spec "'" a2) as [<-|_]; [|discriminate].
  cbv beta in Hk.
  rewrite rmatch_Cat, rmatch_Group, rmatch_Plus_NotChar in Hk.
  apply greedy_run_inv in Hk as (w2 & rest2 & -> & Hw2 & Hk).
  cbv beta in Hk. rewrite rmatch_Cat in Hk.
  destruct rest2 as [|a3 rest2]; [discriminate|].
  rewrite rmatch_Lit in Hk.
  destruct (Ascii.eqb_spec "'" a3) as [<-|_]; [|discriminate].
  assert (Hend : spaces rest2 = O).
  { cbn [Re.rmatch] in Hk. destruct rest2 as [|a4 [|a5 rest2]]; try discriminate.
    - reflexivity.
    - unfold Py.ascii_eqb in Hk.
      destruct (Ascii.eqb_spec a4 Py.LF) as [->|_]; [reflexivity|discriminate]. }
  rewrite spaces_app. cbn [spaces]. rewrite spaces_app. cbn [spaces].
  rewrite Hw, Hw2, Hend. reflexivity.
Qed.

(** The search passes over a prefix that ends with a space, when a space
    follows in what comes after. *)
Lemma DLSYM_REGEX_search_skip (P R : string) :
  (1 <= spaces R)%nat ->
  forall pos,
  Re.search_from false OSXConverter.DLSYM_REGEX pos (P ++ String " " R)%string
  = Re.search_from false OSXConverter.DLSYM_REGEX (pos + String.length P + 1)%nat R.
Proof.
  intros HR. induction P as [|a P IH]; intros pos.
  - change (EmptyString ++ String " " R)%string with (String " " R).
    cbn [Re.search_from].
    destruct (Re.rmatch false OSXConverter.DLSYM_REGEX pos (String " " R) []
                (fun _ _ caps => Some caps)) as [c|] eqn:Hm.
    + apply DLSYM_REGEX_one_space in Hm. cbn [spaces] in Hm.
      rewrite Ascii.eqb_refl in Hm. lia.
    + cbn [String.length]. now replace (pos + 0 + 1)%nat with (S pos) by lia.
  - change (String a P ++ String " " R)%string with (String a (P ++ String " " R)%string).
    cbn [Re.search_from].
    destruct (Re.rmatch false OSXConverter.DLSYM_REGEX pos
                (String a (P ++ String " " R)%string) []
                (fun _ _ caps => Some caps)) as [c|] eqn:Hm.
    + apply DLSYM_REGEX_one_space in Hm. cbn [spaces] in Hm.
      rewrite spaces_app in Hm. cbn [spaces] in Hm.
      rewrite Ascii.eqb_refl in Hm. lia.
    + rewrite IH. cbn [String.length]. f_equal. lia.
Qed.

Lemma DLSYM_REGEX_search_from (A B : string) (pos : nat) :
  word A -> word B ->
  Re.search_from false OSXConverter.DLSYM_REGEX pos
    (A ++ String " " (String "'" (B ++ String "'" EmptyString)))%string
  = Some [(2%nat, B); (1%nat, A)].
Proof.
  intros HA HB.
  destruct (A ++ String " " (String "'" (B ++ String "'" EmptyString)))%string
    as [|a s] eqn:E.
  - destruct HA as [HA _]. destruct A; [contradiction|discriminate].
  - cbn [Re.search_from]. rewrite <- E. now rewrite DLSYM_REGEX_match.
Qed.

Lemma append_assoc (x y z : string) : ((x ++ y) ++ z = x ++ (y ++ z))%string.
Proof.
  induction x as [|c x IH]; [reflexivity|].
  change ((String c x ++ y) ++ z)%string with (String c ((x ++ y) ++ z)%string).
  now rewrite IH.
Qed.

(** X17. A dsymutil line that ends with a word, a space and a quoted
    word (the address and the symbol), after nothing or after text that
    ends with a space, is matched by the pattern with these two words as
    its groups.  When the line carries one of the three symbol kinds,
    the parser records the address under the symbol if the address is
    hexadecimal, and leaves the table as it is otherwise. *)
Theorem OSXConverter_record_symbol_well_formed
    (P A B : string) (sys_map : gmap string Z) :
  P = EmptyString \/ (exists P0, P = (P0 ++ " ")%string) ->
  word A -> word B ->
  let line := (P ++ A ++ " '" ++ B ++ "'")%string in
  Py.contains "N_FUN" line || Py.contains "N_GSYM" line || Py.contains "N_STSYM" line
  = true ->
  Re.search OSXConverter.DLSYM_REGEX line false = Some [(2%nat, B); (1%nat, A)]
  /\ OSXConverter.record_symbol sys_map line
     = match Py.long16 A with
       | Some v => <[B := v]> sys_map
       | None => sys_map
       end.
Proof.
  intros HP HA HB line Hkind.
  assert (Hsearch : Re.search OSXConverter.DLSYM_REGEX line false
                    = Some [(2%nat, B); (1%nat, A)]).
  { unfold Re.search, line. destruct HP as [->|[P0 ->]].
    - change (EmptyString ++ A ++ " '" ++ B ++ "'")%string
        with (A ++ String " " (String "'" (B ++ String "'" EmptyString)))%string.
      now apply DLSYM_REGEX_search_from.
    - rewrite append_assoc.
      change (" " ++ A ++ " '" ++ B ++ "'")%string
        with (String " " (A ++ String " " (String "'" (B ++ String "'" EmptyString))))%string.
      rewrite DLSYM_REGEX_search_skip.
      + now apply DLSYM_REGEX_search_from.
      + rewrite spaces_app. cbn [spaces]. rewrite Ascii.eqb_refl. lia. }
  split; [exact Hsearch|].
  unfold OSXConverter.record_symbol. rewrite Hkind, Hsearch. reflexivity.
Qed.

End Further.

(** * The further properties on sample archives *)

Import MoreRuns.

Ltac solve_chars := split; [discriminate | cbn; repeat constructor].

(** X1 on a map that names a symbol twice. *)
Lemma LinuxConverter_ParseSystemMap_last_write_wins_witness :
  exists m,
    (forall self : Converter string,
        LinuxConverter.ParseSystemMap twice_map self = (Ok m, self))
    /\ forall symbol v,
        m !! symbol = Some v <-> recorded (Py.splitlines twice_map) symbol v.
Proof.
  apply (LinuxConverter_ParseSystemMap_last_write_wins twice_map).
  vm_compute. repeat constructor.
Defined.

Example LinuxConverter_ParseSystemMap_twice :
  LinuxConverter.ParseSystemMap twice_map (init (InArchive []) empty_output None)
  = (Ok (<["_text" := 3222274052]> ∅), init (InArchive []) empty_output None).
Proof. vm_compute. reflexivity. Qed.

(** X2 on a line with blanks around and a tab inside. *)
Lemma LinuxConverter_ParseSystemMap_well_formed_line_witness :
  let line := (" " ++ "c0100000" ++ " " ++ "T" ++ String Py.TAB "" ++ "_text" ++ "  ")%string in
  (forall sys_map lines,
      LinuxConverter.ParseSystemMap_loop sys_map (line :: lines)
      = LinuxConverter.ParseSystemMap_loop (<["_text" := 3222274048]> sys_map) lines)
  /\ (forall self : Converter string,
      LinuxConverter.ParseSystemMap line self
      = (Ok (<["_text" := 3222274048]> ∅), self)).
Proof.
  apply (LinuxConverter_ParseSystemMap_well_formed_line
           " " "c0100000" " " "T" (String Py.TAB "") "_text" "  " 3222274048).
  - solve_chars.
  - solve_chars.
  - solve_chars.
  - unfold blanks. cbn. repeat constructor; discriminate.
  - unfold blanks. cbn. repeat constructor; discriminate.
  - unfold blanks. cbn. repeat constructor; discriminate.
  - discriminate.
  - unfold blanks. cbn. repeat constructor; discriminate.
  - discriminate.
  - reflexivity.
Defined.

(** X4 on the text with the [(ppc)] header. *)
Lemma OSXConverter_ParseSystemMap_only_failure_witness :
  exists line last_part,
    line ∈ Py.splitlines (dsymutil_text [header_ppc])
    /\ Py.contains "Symbol table for" line = true
    /\ last (Py.split line) = Some last_part
    /\ last_part <> "(x86_64)" /\ last_part <> "(i386)"
    /\ RuntimeError "Unknown Darwin Architecture (ppc)"
       = RuntimeError ("Unknown Darwin Architecture " ++ last_part)%string.
Proof.
  apply (OSXConverter_ParseSystemMap_only_failure (dsymutil_text [header_ppc])
           (InArchive []) empty_output None
           (RuntimeError "Unknown Darwin Architecture (ppc)")
           (mkConverter (InArchive []) empty_output None)).
  vm_compute. reflexivity.
Defined.

(** X5 on the module archive, with an output that already holds
    notes.txt: the entry is still there after the conversion. *)
Lemma Convert_writes_four_names_witness :
  let self := init (InArchive module_archive) used_output None in
  input (Convert LinuxConverter_cls self).2 = InArchive module_archive
  /\ output (Convert LinuxConverter_cls self).2 !! "notes.txt" = Some (RawData "kept").
Proof.
  intros self.
  destruct (@Convert_writes_four_names string C LinuxConverter_cls self "notes.txt")
    as [Hin Hout].
  split; [exact Hin|].
  rewrite Hout; [reflexivity|discriminate|discriminate|discriminate|].
  left. discriminate.
Defined.

(** X6 on the archive with no address: the conversion raises and the
    output is as before. *)
Lemma Convert_failure_writes_no_profile_witness :
  let self := init (InArchive no_address_archive) used_output None in
  (forall name, name <> "module.ko" ->
     output (Convert LinuxConverter_cls self).2 !! name = used_output !! name)
  /\ output (Convert OSXConverter_cls self).2 = used_output.
Proof.
  intros self. split.
  - destruct (@Convert_failure_writes_no_profile string C LinuxConverter_cls self
                (@Convert string C LinuxConverter_cls self).2
                (ValueError "max() arg is an empty sequence")) as [Hnames _];
      [vm_compute; reflexivity|].
    exact Hnames.
  - destruct (@Convert_failure_writes_no_profile string C OSXConverter_cls self
                (@Convert string C OSXConverter_cls self).2
                (RuntimeError "Unknown profile format.")) as [_ Hall];
      [vm_compute; reflexivity|].
    apply Hall. discriminate.
Defined.

(** X7 on the archive whose first System.map is empty. *)
Lemma LinuxConverter_Convert_empty_marker_witness :
  let self := init (InArchive empty_marker_archive) empty_output None in
  LinuxConverter.Convert self = (Raise (RuntimeError "Unknown profile format."), self).
Proof.
  apply (@LinuxConverter_Convert_empty_marker string C []
           [("boot/System.map", "c0100000 T _text"); ("vtypes.json", "{}")]
           "System.map" empty_output None).
  - constructor.
  - vm_compute. discriminate.
Defined.

(** X8 on the Darwin archive. *)
Lemma ConvertProfile_without_Linux_marker_witness :
  let a := darwin_archive [header_x86_64] in
  ConvertProfile a empty_output None
  = match OSXConverter.Convert (init (InArchive a) empty_output None) with
    | (Ok _, self) => (Ok tt, output self)
    | (Raise e, self) =>
        if is_RuntimeError e
        then (Raise (RuntimeError "No suitable converter found - profile not recognized."),
              output self)
        else (Raise e, output self)
    end.
Proof.
  intros a.
  apply (@ConvertProfile_without_Linux_marker string C a empty_output None).
  vm_compute. repeat constructor.
Defined.

(** X9 on the archive with no marker. *)
Lemma ConvertProfile_no_marker_witness :
  ConvertProfile plain_archive used_output None
  = (Raise (RuntimeError "No suitable converter found - profile not recognized."),
     used_output).
Proof.
  apply (@ConvertProfile_no_marker string C plain_archive used_output None).
  - vm_compute. repeat constructor.
  - vm_compute. repeat constructor.
Defined.

(** X10 on the archive with the [(ppc)] header. *)
Lemma ConvertProfile_masks_RuntimeError_witness :
  (ConvertProfile (darwin_archive [header_ppc]) empty_output None).1
  = Raise (RuntimeError "No suitable converter found - profile not recognized.").
Proof.
  destruct (ConvertProfile (darwin_archive [header_ppc]) empty_output None)
    as [[[]|e] out'] eqn:E.
  - vm_compute in E. discriminate.
  - cbn [fst]. f_equal.
    apply (@ConvertProfile_masks_RuntimeError string C
             (darwin_archive [header_ppc]) empty_output out' None e E).
    vm_compute in E. injection E as <- _. reflexivity.
Defined.

(** X11 on the module archive. *)
Lemma LinuxConverter_Convert_module_first_witness :
  LinuxConverter.Convert (init (InArchive module_archive) empty_output None)
  = LinuxConverter.WriteProfile "Linux" (<["_text" := 3222274048]> ∅) "ELF-1"
      (init (InArchive module_archive) (Create_write "module.ko" "ELF-1" empty_output) None).
Proof.
  apply (@LinuxConverter_Convert_module_first string C module_archive empty_output None
           "c0100000 T _text" "ELF-1" (<["_text" := 3222274048]> ∅)
           ("ELF-1" : @ko_parser string C) "ELF-1").
  - vm_compute. reflexivity.
  - discriminate.
  - vm_compute. reflexivity.
  - vm_compute. reflexivity.
  - discriminate.
  - reflexivity.
  - reflexivity.
Defined.

(** X12 on the archive with small addresses and the class Linux64. *)
Lemma LinuxConverter_Convert_json_pass_through_witness :
  LinuxConverter.Convert (init (InArchive small_archive) empty_output (Some "Linux64"))
  = (Ok tt,
     init (InArchive small_archive)
       (stored (<["low" := 65535]> (<["_text" := 3222274048]> ∅)) "{}"
          (Some "Linux64") empty_output)
       (Some "Linux64")).
Proof.
  apply (@LinuxConverter_Convert_json_pass_through string C small_archive empty_output
           "Linux64" (unlines ["c0100000 T _text"; "ffff D low"]) "{}" None None
           (<["low" := 65535]> (<["_text" := 3222274048]> ∅)) "{}").
  - vm_compute. reflexivity.
  - vm_compute. discriminate.
  - vm_compute. reflexivity.
  - vm_compute. reflexivity.
  - reflexivity.
  - vm_compute. reflexivity.
  - reflexivity.
  - vm_compute. reflexivity.
  - discriminate.
  - reflexivity.
Defined.


(** X14 on a file that binds [ntkrnlmp_types]. *)
Lemma WindowsConverter_Convert_completes_witness :
  let H := file_collaborators [("ntkrnlmp.py", "ntkrnlmp_types")] in
  let self := init (InPath "ntkrnlmp.py") empty_output (Some "WinXPSP3x86") in
  exists c path code l vt,
    profile_class self = Some c /\ c <> EmptyString
    /\ input self = InPath path
    /\ @open_rb string H path = Ok code
    /\ @exec string H code = Ok l
    /\ l !! "ntkrnlmp_types" = Some vt
    /\ (@WindowsConverter.Convert string H self).2
       = mkConverter (input self) (stored ∅ vt (Some c) (output self)) (Some c).
Proof.
  intros H self.
  apply (@WindowsConverter_Convert_completes string H self
           (@WindowsConverter.Convert string H self).2).
  vm_compute. reflexivity.
Defined.

(** X15 on the archive with small addresses: the class given is
    written, not the inferred Linux32. *)
Lemma Convert_explicit_class_witness :
  let self' := (Convert LinuxConverter_cls
                  (mkConverter (InArchive small_archive) empty_output (Some "Linux64"))).2 in
  profile_class self' = Some "Linux64"
  /\ output self' !! "metadata"
     = Some (MetadataData (Some "Linux64") "Constants.json" "vtypes.json").
Proof.
  intros self'.
  apply (@Convert_explicit_class string C LinuxConverter_cls
           (InArchive small_archive) empty_output "Linux64" self').
  vm_compute. reflexivity.
Defined.

(** X16 on the flags [--converter LinuxConverter in.zip out.zip]. *)
Lemma main_named_archive_converter_witness :
  main (mkFlags None (Some "LinuxConverter") "in.zip" "out.zip")
  = (Raise (AttributeError "'str' object has no attribute 'ListFiles'"),
     Some empty_output).
Proof.
  apply (@main_named_archive_converter string C
           (mkFlags None (Some "LinuxConverter") "in.zip" "out.zip")
           "LinuxConverter" LinuxConverter_cls empty_output).
  - reflexivity.
  - discriminate.
  - reflexivity.
  - discriminate.
  - reflexivity.
Defined.

(** X17 on a function line of a dsymutil dump. *)
Lemma OSXConverter_record_symbol_well_formed_witness :
  let line := "[  12] 0001 24 (N_FUN ) 01 0000 ffffff8000200000 '_start'" in
  Re.search OSXConverter.DLSYM_REGEX line false
  = Some [(2%nat, "_start"); (1%nat, "ffffff8000200000")]
  /\ OSXConverter.record_symbol ∅ line = <["_start" := 18446743523955834880]> ∅.
Proof.
  intros line.
  apply (OSXConverter_record_symbol_well_formed
           "[  12] 0001 24 (N_FUN ) 01 0000 " "ffffff8000200000" "_start" ∅).
  - right. exists "[  12] 0001 24 (N_FUN ) 01 0000". reflexivity.
  - split; [discriminate|]. cbn. repeat constructor; discriminate.
  - split; [discriminate|]. cbn. repeat constructor; discriminate.
  - vm_compute. reflexivity.
Defined.
